(** * Obsidian Watchtower: record model, stores, diff engine and alerts

    A shallow embedding of [watchtower.models], [watchtower.storage] and
    [watchtower.utils], followed by the properties of the written
    specification that were checked against it.

    Conventions of the embedding
    - a Python [str] is a [string] (a sequence of characters, compared
      character by character as Python does);
    - a Python [float] is a binary64 [float], with the primitive IEEE
      operations and comparisons;
    - a naive [datetime] is the number of microseconds it denotes, a [Z];
    - a raised exception is the left summand of a [result];
    - a [dict] whose iteration order is observed is a [Dict.t] (insertion
      ordered); a [dict] or [set] that is only searched is a [gmap] or
      [gset];
    - the wall clock and the UUID generator are inputs of the operations
      that read them. *)

From Stdlib Require Import Floats.
From stdpp Require Import gmap strings list sorting pretty.

Open Scope string_scope.

(** ** Python values and exceptions *)

(** Values that [json.loads] produces and that [json.dumps] and the
    [details] and [metadata] dictionaries carry. *)
Unset Elimination Schemes.
Inductive pyval : Type :=
| PNone
| PBool (b : bool)
| PInt (n : Z)
| PFloat (f : float)
| PStr (s : string)
| PList (l : list pyval)
| PDict (d : list (string * pyval)).
Set Elimination Schemes.

Inductive exn : Type :=
| ValueError (msg : string)
| ValidationError (field : string) (kind : string)
| AttributeError (msg : string)
| KeyError (key : string)
| TypeError (msg : string)
| JSONDecodeError (msg : string).

Definition result (A : Type) : Type := exn + A.

Global Instance result_ret : MRet result := fun A a => inr a.

Global Instance result_bind : MBind result := fun A B k r =>
  match r with
  | inl e => inl e
  | inr a => k a
  end.

(** [try: body except (E1, E2): handler]. *)
Definition try_except {A : Type} (body : result A) (caught : exn -> bool)
    (handler : result A) : result A :=
  match body with
  | inl e => if caught e then handler else inl e
  | inr a => inr a
  end.

(** Truth value of an optional string: [None] and the empty string are
    false. *)
Definition truthy (s : option string) : bool :=
  match s with
  | None => false
  | Some s => negb (String.eqb s "")
  end.

Definition py_type_name (v : pyval) : string :=
  match v with
  | PNone => "NoneType"
  | PBool _ => "bool"
  | PInt _ => "int"
  | PFloat _ => "float"
  | PStr _ => "str"
  | PList _ => "list"
  | PDict _ => "dict"
  end.

Definition opt_str (s : option string) : pyval :=
  match s with
  | None => PNone
  | Some s => PStr s
  end.

(** ** The Python runtime the package calls into *)

(** Library functions the package uses and does not define. *)
Class PyRuntime : Type := {
  (** [hashlib.sha256(s.encode('utf-8')).hexdigest()] *)
  sha256_hex : string -> string;
  (** [datetime.isoformat()] *)
  isoformat : Z -> string;
  (** the JSON string literal [json.dumps] writes for a [str] *)
  json_str : string -> string;
  (** the text [json.dumps] writes for a [float] *)
  json_float : float -> string;
  (** [json.loads] *)
  json_loads : string -> result pyval;
  (** [==] on values produced by [json.loads] *)
  py_eq : pyval -> pyval -> bool
}.

(** ** Insertion-ordered dictionaries *)

Module Dict.

Definition t (V : Type) : Type := list (string * V).

Definition empty {V : Type} : t V := [].

(** [d.get(k)] *)
Fixpoint get {V : Type} (d : t V) (k : string) : option V :=
  match d with
  | [] => None
  | (k', v) :: d' => if decide (k' = k) then Some v else get d' k
  end.

(** [d[k] = v]: a present key keeps its position, a new key goes last. *)
Fixpoint set {V : Type} (d : t V) (k : string) (v : V) : t V :=
  match d with
  | [] => [(k, v)]
  | (k', v') :: d' =>
      if decide (k' = k) then (k, v) :: d' else (k', v') :: set d' k v
  end.

Definition keys {V : Type} (d : t V) : list string := map fst d.

Definition values {V : Type} (d : t V) : list V := map snd d.

Definition len {V : Type} (d : t V) : nat := length d.

(** [k in d] *)
Definition contains {V : Type} (d : t V) (k : string) : bool :=
  match get d k with
  | Some _ => true
  | None => false
  end.

(** [del d[k]] for a key that is present; an absent key leaves [d]
    (Python raises there, and the callers test [k in d] first). *)
Fixpoint delete {V : Type} (d : t V) (k : string) : t V :=
  match d with
  | [] => []
  | (k', v) :: d' => if decide (k' = k) then d' else (k', v) :: delete d' k
  end.

End Dict.

(** ** Sorting *)

(** Order of [str] under [<=]. *)
Definition str_le (a b : string) : Prop := String.leb a b = true.

Global Instance str_le_dec (a b : string) : Decision (str_le a b) :=
  bool_eq_dec (String.leb a b) true.

(** [sorted(l)] on a list of strings. *)
Definition sorted (l : list string) : list string := merge_sort str_le l.

Definition key_le {V : Type} (a b : string * V) : Prop := str_le a.1 b.1.

Global Instance key_le_dec {V : Type} (a b : string * V) : Decision (key_le a b) :=
  str_le_dec a.1 b.1.

(** [sorted(d.items())] as [json.dumps(..., sort_keys=True)] applies it:
    the keys are distinct, so only keys are compared. *)
Definition sorted_items {V : Type} (d : list (string * V)) : list (string * V) :=
  merge_sort key_le d.

(** [l.sort(key=..., reverse=True)] where [lt a b] is [key(a) < key(b)]:
    descending keys, equal keys staying in their original order. *)
Fixpoint insert_desc {A : Type} (lt : A -> A -> bool) (x : A) (l : list A) : list A :=
  match l with
  | [] => [x]
  | y :: l' => if lt x y then y :: insert_desc lt x l' else x :: y :: l'
  end.

Fixpoint sort_desc {A : Type} (lt : A -> A -> bool) (l : list A) : list A :=
  match l with
  | [] => []
  | x :: l' => insert_desc lt x (sort_desc lt l')
  end.

(** [l[:n]] *)
Definition slice_to {A : Type} (n : Z) (l : list A) : list A :=
  if (0 <=? n)%Z then take (Z.to_nat n) l
  else take (length l - Z.to_nat (- n)) l.

(** ** [json.dumps(v, sort_keys=True)] *)

Section Json.
Context `{PyRuntime}.

Fixpoint json_dumps (v : pyval) : string :=
  match v with
  | PNone => "null"
  | PBool true => "true"
  | PBool false => "false"
  | PInt n => pretty n
  | PFloat f => json_float f
  | PStr s => json_str s
  | PList l => "[" ++ String.concat ", " (map json_dumps l) ++ "]"
  | PDict d =>
      "{" ++ String.concat ", "
               (map (fun kv => json_str (fst kv) ++ ": " ++ snd kv)
                    (sorted_items (map (fun kv => (fst kv, json_dumps (snd kv))) d)))
          ++ "}"
  end.

(** [f"{name}:{version}" if name else None] *)
Definition provenance (name version : option string) : pyval :=
  if truthy name
  then PStr (default "None" name ++ ":" ++ default "None" version)
  else PNone.

End Json.

(** ** Record model ([watchtower.models]) *)

Module Evidence.
Section Evidence.
Context `{PyRuntime}.

Record t : Type := mk {
  id : option string;
  content : string;
  source : string;
  metadata : list (string * pyval);
  tool_name : option string;
  tool_version : option string;
  model_name : option string;
  model_version : option string;
  timestamp : Z
}.

(** [evidence.id = evidence_id] *)
Definition set_id (e : t) (i : string) : t :=
  mk (Some i) (content e) (source e) (metadata e) (tool_name e)
     (tool_version e) (model_name e) (model_version e) (timestamp e).

Definition sha256 (e : t) : string := sha256_hex (content e).

Definition fingerprint_data (e : t) : pyval :=
  PDict [("sha256", PStr (sha256 e));
         ("timestamp", PStr (isoformat (timestamp e)));
         ("tool", provenance (tool_name e) (tool_version e));
         ("model", provenance (model_name e) (model_version e))].

Definition fingerprint (e : t) : string :=
  let fingerprint_str := json_dumps (fingerprint_data e) in
  sha256_hex fingerprint_str.

End Evidence.
End Evidence.

Module Claim.
Section Claim.
Context `{PyRuntime}.

Record t : Type := mk {
  id : option string;
  statement : string;
  confidence : float;
  supporting_evidence_ids : list string;
  counter_evidence_ids : list string;
  metadata : list (string * pyval);
  tool_name : option string;
  tool_version : option string;
  model_name : option string;
  model_version : option string;
  timestamp : Z
}.

(** [claim.id = claim_id] *)
Definition set_id (c : t) (i : string) : t :=
  mk (Some i) (statement c) (confidence c) (supporting_evidence_ids c)
     (counter_evidence_ids c) (metadata c) (tool_name c) (tool_version c)
     (model_name c) (model_version c) (timestamp c).

Definition no_evidence_msg : string :=
  "No claim without evidence_ref: Claims must have at least one "
  ++ "supporting or counter evidence reference".

Definition model_post_init (c : t) : result unit :=
  let total_evidence :=
    (length (supporting_evidence_ids c) + length (counter_evidence_ids c))%nat in
  if (total_evidence =? 0)%nat then inl (ValueError no_evidence_msg)
  else inr tt.

(** [Claim(statement=..., confidence=..., ...)]: the field constraints
    [ge=0.0, le=1.0] of [confidence] are checked by the validation
    library (a comparison that a NaN fails), then [model_post_init]
    runs on the built value. The [ValueError] of [model_post_init] is
    kept as raised; the library hands it to the caller inside its own
    [ValidationError], a subclass of [ValueError], with the message. *)
Definition init (statement : string) (confidence : float)
    (supporting_evidence_ids counter_evidence_ids : list string)
    (metadata : list (string * pyval))
    (tool_name tool_version model_name model_version : option string)
    (timestamp : Z) : result t :=
  if negb (confidence <=? 1)%float
  then inl (ValidationError "confidence" "less_than_equal")
  else if negb (0 <=? confidence)%float
  then inl (ValidationError "confidence" "greater_than_equal")
  else
    let c := mk None statement confidence supporting_evidence_ids
                counter_evidence_ids metadata tool_name tool_version
                model_name model_version timestamp in
    _ ← model_post_init c; mret c.

Definition evidence_refs (c : t) : list string :=
  supporting_evidence_ids c ++ counter_evidence_ids c.

Definition fingerprint_data (c : t) : pyval :=
  PDict [("statement_hash", PStr (sha256_hex (statement c)));
         ("confidence", PFloat (confidence c));
         ("supporting_evidence", PList (map PStr (sorted (supporting_evidence_ids c))));
         ("counter_evidence", PList (map PStr (sorted (counter_evidence_ids c))));
         ("timestamp", PStr (isoformat (timestamp c)));
         ("tool", provenance (tool_name c) (tool_version c));
         ("model", provenance (model_name c) (model_version c))].

Definition run_fingerprint (c : t) : string :=
  let fingerprint_str := json_dumps (fingerprint_data c) in
  sha256_hex fingerprint_str.

End Claim.
End Claim.

Module Artifact.
Section Artifact.
Context `{PyRuntime}.

(** [Literal["evidence", "claim", "derived", "report"]] *)
Inductive artifact_type_t : Type :=
| T_evidence
| T_claim
| T_derived
| T_report.

Definition artifact_type_str (k : artifact_type_t) : string :=
  match k with
  | T_evidence => "evidence"
  | T_claim => "claim"
  | T_derived => "derived"
  | T_report => "report"
  end.

Global Instance artifact_type_eq_dec : EqDecision artifact_type_t.
Proof. solve_decision. Defined.

Record t : Type := mk {
  id : option string;
  artifact_type : artifact_type_t;
  content : string;
  parent_artifact_id : option string;
  metadata : list (string * pyval);
  tool_name : option string;
  tool_version : option string;
  model_name : option string;
  model_version : option string;
  timestamp : Z
}.

(** [artifact.id = artifact_id] *)
Definition set_id (a : t) (i : string) : t :=
  mk (Some i) (artifact_type a) (content a) (parent_artifact_id a)
     (metadata a) (tool_name a) (tool_version a) (model_name a)
     (model_version a) (timestamp a).

Definition sha256 (a : t) : string := sha256_hex (content a).

Definition fingerprint_data (a : t) : pyval :=
  PDict [("sha256", PStr (sha256 a));
         ("artifact_type", PStr (artifact_type_str (artifact_type a)));
         ("parent_id", opt_str (parent_artifact_id a));
         ("timestamp", PStr (isoformat (timestamp a)));
         ("tool", provenance (tool_name a) (tool_version a));
         ("model", provenance (model_name a) (model_version a))].

Definition fingerprint (a : t) : string :=
  let fingerprint_str := json_dumps (fingerprint_data a) in
  sha256_hex fingerprint_str.

End Artifact.
End Artifact.

(** ** Stores ([watchtower.storage]) *)

(** [if limit: results = results[:limit]] *)
Definition apply_limit {A : Type} (limit : option Z) (results : list A) : list A :=
  match limit with
  | Some n => if (n =? 0)%Z then results else slice_to n results
  | None => results
  end.

(** [if since: results = [r for r in results if r.timestamp >= since]];
    a [datetime] is never false. *)
Definition filter_since {A : Type} (timestamp : A -> Z) (since : option Z)
    (results : list A) : list A :=
  match since with
  | Some t => List.filter (fun r => (t <=? timestamp r)%Z) results
  | None => results
  end.

Module EvidenceStore.

Record t : Type := mk { _evidence : Dict.t Evidence.t }.

Definition init : t := mk Dict.empty.

(** [now] is the reading of [datetime.utcnow()] and [uuid] the string
    of [uuid.uuid4()] drawn by the call. *)
Definition store_evidence (s : t) (now : Z) (uuid : string)
    (content source : string) (metadata : option (list (string * pyval)))
    (tool_name tool_version model_name model_version : option string)
    : Evidence.t * t :=
  let evidence :=
    Evidence.mk None content source (default [] metadata) tool_name
                tool_version model_name model_version now in
  let evidence_id := uuid in
  let evidence := Evidence.set_id evidence evidence_id in
  (evidence, mk (Dict.set (_evidence s) evidence_id evidence)).

Definition get_evidence (s : t) (evidence_id : string) : option Evidence.t :=
  Dict.get (_evidence s) evidence_id.

Definition list_evidence (s : t) (source : option string) (since : option Z)
    (limit : option Z) : list Evidence.t :=
  let results := Dict.values (_evidence s) in
  let results :=
    if truthy source
    then List.filter (fun e => bool_decide (Some (Evidence.source e) = source)) results
    else results in
  let results := filter_since Evidence.timestamp since results in
  let results :=
    sort_desc (fun a b => (Evidence.timestamp a <? Evidence.timestamp b)%Z) results in
  apply_limit limit results.

Definition verify_evidence `{PyRuntime} (s : t) (evidence_id : string) : bool :=
  match get_evidence s evidence_id with
  | None => false
  | Some evidence =>
      let expected_hash := Evidence.sha256 evidence in
      let actual_hash := Evidence.sha256 evidence in
      String.eqb expected_hash actual_hash
  end.

Definition count_evidence (s : t) : nat := Dict.len (_evidence s).

End EvidenceStore.

Module ClaimStore.

Record t : Type := mk { _claims : Dict.t Claim.t }.

Definition init : t := mk Dict.empty.

(** The loop over [all_evidence_ids]: the first identifier the evidence
    store does not hold raises. A stored [Evidence] is never false. *)
Fixpoint validate_evidence (es : EvidenceStore.t) (all_evidence_ids : list string)
    : result unit :=
  match all_evidence_ids with
  | [] => inr tt
  | evidence_id :: rest =>
      match EvidenceStore.get_evidence es evidence_id with
      | None => inl (ValueError ("Evidence not found: " ++ evidence_id))
      | Some _ => validate_evidence es rest
      end
  end.

(** [es] is the state, when the call is made, of the evidence store the
    claim store was constructed with; the claim store only reads it. The
    second component is the claim store after the call: a raised
    exception leaves it as it was. *)
Definition store_claim (es : EvidenceStore.t) (s : t) (now : Z) (uuid : string)
    (statement : string) (confidence : float)
    (supporting_evidence_ids : list string)
    (counter_evidence_ids : option (list string))
    (metadata : option (list (string * pyval)))
    (tool_name tool_version model_name model_version : option string)
    : result Claim.t * t :=
  let all_evidence_ids :=
    (supporting_evidence_ids ++ default [] counter_evidence_ids)%list in
  match validate_evidence es all_evidence_ids with
  | inl e => (inl e, s)
  | inr _ =>
      match Claim.init statement confidence supporting_evidence_ids
                       (default [] counter_evidence_ids) (default [] metadata)
                       tool_name tool_version model_name model_version now with
      | inl e => (inl e, s)
      | inr claim =>
          let claim_id := uuid in
          let claim := Claim.set_id claim claim_id in
          (inr claim, mk (Dict.set (_claims s) claim_id claim))
      end
  end.

Definition get_claim (s : t) (claim_id : string) : option Claim.t :=
  Dict.get (_claims s) claim_id.

(** [(c.confidence, c.timestamp)] compared as tuples: the first
    components decide unless they are equal. *)
Definition sort_key_lt (a b : Claim.t) : bool :=
  if (Claim.confidence a =? Claim.confidence b)%float
  then (Claim.timestamp a <? Claim.timestamp b)%Z
  else (Claim.confidence a <? Claim.confidence b)%float.

Definition list_claims (s : t) (min_confidence : option float) (since : option Z)
    (limit : option Z) : list Claim.t :=
  let results := Dict.values (_claims s) in
  let results :=
    match min_confidence with
    | Some m => List.filter (fun c => (m <=? Claim.confidence c)%float) results
    | None => results
    end in
  let results := filter_since Claim.timestamp since results in
  let results := sort_desc sort_key_lt results in
  apply_limit limit results.

Definition get_claims_by_evidence (s : t) (evidence_id : string) : list Claim.t :=
  List.filter (fun claim => bool_decide (evidence_id ∈ Claim.evidence_refs claim))
              (Dict.values (_claims s)).

Definition count_claims (s : t) : nat := Dict.len (_claims s).

End ClaimStore.

Module ArtifactStore.

Record t : Type := mk { _artifacts : Dict.t Artifact.t }.

Definition init : t := mk Dict.empty.

Definition store_artifact (s : t) (now : Z) (uuid : string)
    (artifact_type : Artifact.artifact_type_t) (content : string)
    (parent_artifact_id : option string)
    (metadata : option (list (string * pyval)))
    (tool_name tool_version model_name model_version : option string)
    : Artifact.t * t :=
  let artifact :=
    Artifact.mk None artifact_type content parent_artifact_id
                (default [] metadata) tool_name tool_version model_name
                model_version now in
  let artifact_id := uuid in
  let artifact := Artifact.set_id artifact artifact_id in
  (artifact, mk (Dict.set (_artifacts s) artifact_id artifact)).

Definition get_artifact (s : t) (artifact_id : string) : option Artifact.t :=
  Dict.get (_artifacts s) artifact_id.

Definition list_artifacts (s : t) (artifact_type : option Artifact.artifact_type_t)
    (parent_artifact_id : option string) (since : option Z) (limit : option Z)
    : list Artifact.t :=
  let results := Dict.values (_artifacts s) in
  let results :=
    match artifact_type with
    | Some k => List.filter (fun a => bool_decide (Artifact.artifact_type a = k)) results
    | None => results
    end in
  let results :=
    match parent_artifact_id with
    | Some p =>
        List.filter (fun a => bool_decide (Artifact.parent_artifact_id a = Some p)) results
    | None => results
    end in
  let results := filter_since Artifact.timestamp since results in
  let results :=
    sort_desc (fun a b => (Artifact.timestamp a <? Artifact.timestamp b)%Z) results in
  apply_limit limit results.

(** The [while current_id:] loop. [fuel] bounds the number of times the
    loop test is evaluated; [None] means the bound was reached with the
    loop still running. [lineage.insert(0, artifact)] is a cons. *)
Fixpoint lineage_loop (fuel : nat) (s : t) (current_id : option string)
    (lineage : list Artifact.t) : option (list Artifact.t) :=
  match fuel with
  | O => None
  | S fuel' =>
      if truthy current_id then
        match get_artifact s (default "" current_id) with
        | None => Some lineage
        | Some artifact =>
            lineage_loop fuel' s (Artifact.parent_artifact_id artifact)
                         (artifact :: lineage)
        end
      else Some lineage
  end.

Definition get_artifact_lineage (fuel : nat) (s : t) (artifact_id : string)
    : option (list Artifact.t) :=
  lineage_loop fuel s (Some artifact_id) [].

Definition verify_artifact `{PyRuntime} (s : t) (artifact_id : string) : bool :=
  match get_artifact s artifact_id with
  | None => false
  | Some artifact =>
      let expected_hash := Artifact.sha256 artifact in
      let actual_hash := Artifact.sha256 artifact in
      String.eqb expected_hash actual_hash
  end.

Definition count_artifacts (s : t) : nat := Dict.len (_artifacts s).

End ArtifactStore.

(** ** Diff engine ([watchtower.utils.diff]) *)

(** [m[k]] on a dictionary that is only searched. *)
Definition subscript {V : Type} (m : gmap string V) (k : string) : result V :=
  match m !! k with
  | Some v => inr v
  | None => inl (KeyError k)
  end.

(** [{c.id: c for c in claims if c.id}], as written in both
    [compute_run_diff] and [generate_alerts]: a later claim replaces an
    earlier one with the same identifier. *)
Definition claims_map (claims : list Claim.t) : gmap string Claim.t :=
  foldl (fun m c =>
           if truthy (Claim.id c) then <[default "" (Claim.id c) := c]> m else m)
        ∅ claims.

Module Diff.
Section Diff.
Context `{PyRuntime}.

Record modified_claim : Type := mk_modified {
  id : string;
  statement_changed : bool;
  confidence_changed : bool;
  confidence_delta : float;
  fingerprint_changed : bool
}.

Record run_diff : Type := mk_run_diff {
  added_claims : list string;
  removed_claims : list string;
  modified_claims : list modified_claim;
  total_changes : nat
}.

(** The test of the [if] in the loop over [common_ids]. *)
Definition differs (claim_a claim_b : Claim.t) : bool :=
  negb (String.eqb (Claim.statement claim_a) (Claim.statement claim_b))
  || negb (Claim.confidence claim_a =? Claim.confidence claim_b)%float
  || negb (String.eqb (Claim.run_fingerprint claim_a) (Claim.run_fingerprint claim_b)).

Definition modified_entry (claim_id : string) (claim_a claim_b : Claim.t)
    : modified_claim :=
  {| id := claim_id;
     statement_changed :=
       negb (String.eqb (Claim.statement claim_a) (Claim.statement claim_b));
     confidence_changed :=
       negb (Claim.confidence claim_a =? Claim.confidence claim_b)%float;
     confidence_delta := (Claim.confidence claim_b - Claim.confidence claim_a)%float;
     fingerprint_changed :=
       negb (String.eqb (Claim.run_fingerprint claim_a) (Claim.run_fingerprint claim_b)) |}.

(** [for claim_id in common_ids: ...], with [modified_claims] the list
    built so far. *)
Fixpoint modified_loop (claims_a_map claims_b_map : gmap string Claim.t)
    (common_ids : list string) (modified_claims : list modified_claim)
    : result (list modified_claim) :=
  match common_ids with
  | [] => inr modified_claims
  | claim_id :: rest =>
      claim_a ← subscript claims_a_map claim_id;
      claim_b ← subscript claims_b_map claim_id;
      let modified_claims :=
        if differs claim_a claim_b
        then (modified_claims ++ [modified_entry claim_id claim_a claim_b])%list
        else modified_claims in
      modified_loop claims_a_map claims_b_map rest modified_claims
  end.

(** Sets are iterated in the order [elements] lists them; Python's order
    depends on the hashes of the identifiers and on how the set was
    built, so the lists of the result stand for the code's up to their
    order. *)
Definition compute_run_diff (claims_a claims_b : list Claim.t) : result run_diff :=
  let claims_a_map := claims_map claims_a in
  let claims_b_map := claims_map claims_b in
  let ids_a : gset string := dom claims_a_map in
  let ids_b : gset string := dom claims_b_map in
  let added_ids := ids_b ∖ ids_a in
  let removed_ids := ids_a ∖ ids_b in
  let common_ids := ids_a ∩ ids_b in
  modified_claims ← modified_loop claims_a_map claims_b_map (elements common_ids) [];
  mret {| added_claims := elements added_ids;
          removed_claims := elements removed_ids;
          modified_claims := modified_claims;
          total_changes :=
            (size added_ids + size removed_ids + length modified_claims)%nat |}.

Record modified_key : Type := mk_modified_key {
  key : string;
  old_value : pyval;
  new_value : pyval
}.

Record dict_diff : Type := mk_dict_diff {
  added_keys : list string;
  removed_keys : list string;
  modified_keys : list modified_key
}.

(** [v.keys()]: only a [dict] has the attribute. *)
Definition py_keys (v : pyval) : result (list string) :=
  match v with
  | PDict d => inr (map fst d)
  | _ => inl (AttributeError
                ("'" ++ py_type_name v ++ "' object has no attribute 'keys'"))
  end.

(** [v[key]] for a string key. *)
Definition py_getitem (v : pyval) (key : string) : result pyval :=
  match v with
  | PDict d =>
      match Dict.get d key with
      | Some x => inr x
      | None => inl (KeyError key)
      end
  | PList _ => inl (TypeError "list indices must be integers or slices, not str")
  | PStr _ => inl (TypeError "string indices must be integers, not 'str'")
  | _ => inl (TypeError ("'" ++ py_type_name v ++ "' object is not subscriptable"))
  end.

Fixpoint modified_keys_loop (dict_a dict_b : pyval) (common_keys : list string)
    (modified_keys : list modified_key) : result (list modified_key) :=
  match common_keys with
  | [] => inr modified_keys
  | key :: rest =>
      a ← py_getitem dict_a key;
      b ← py_getitem dict_b key;
      let modified_keys :=
        if negb (py_eq a b)
        then (modified_keys ++ [mk_modified_key key a b])%list
        else modified_keys in
      modified_keys_loop dict_a dict_b rest modified_keys
  end.

Definition _compute_dict_diff (dict_a dict_b : pyval) : result dict_diff :=
  ka ← py_keys dict_a;
  let keys_a : gset string := list_to_set ka in
  kb ← py_keys dict_b;
  let keys_b : gset string := list_to_set kb in
  let added_keys := keys_b ∖ keys_a in
  let removed_keys := keys_a ∖ keys_b in
  let common_keys := keys_a ∩ keys_b in
  modified_keys ← modified_keys_loop dict_a dict_b (elements common_keys) [];
  mret {| added_keys := elements added_keys;
          removed_keys := elements removed_keys;
          modified_keys := modified_keys |}.

(** The value stored under ["content_diff"]: the dictionary of
    [_compute_dict_diff] or a string. *)
Inductive content_diff_t : Type :=
| ContentDict (d : dict_diff)
| ContentStr (s : string).

Record artifact_diff : Type := mk_artifact_diff {
  id_match : bool;
  type_match : bool;
  content_match : bool;
  sha256_match : bool;
  fingerprint_match : bool;
  parent_match : bool;
  content_diff : option content_diff_t
}.

(** [except (json.JSONDecodeError, TypeError)] *)
Definition caught_by_diff (e : exn) : bool :=
  match e with
  | JSONDecodeError _ | TypeError _ => true
  | _ => false
  end.

Definition compute_artifact_diff (artifact_a artifact_b : Artifact.t)
    : result artifact_diff :=
  let id_match := bool_decide (Artifact.id artifact_a = Artifact.id artifact_b) in
  let type_match :=
    bool_decide (Artifact.artifact_type artifact_a = Artifact.artifact_type artifact_b) in
  let content_match :=
    String.eqb (Artifact.content artifact_a) (Artifact.content artifact_b) in
  let sha256_match :=
    String.eqb (Artifact.sha256 artifact_a) (Artifact.sha256 artifact_b) in
  let fingerprint_match :=
    String.eqb (Artifact.fingerprint artifact_a) (Artifact.fingerprint artifact_b) in
  let parent_match :=
    bool_decide (Artifact.parent_artifact_id artifact_a
                 = Artifact.parent_artifact_id artifact_b) in
  let diff := mk_artifact_diff id_match type_match content_match sha256_match
                               fingerprint_match parent_match in
  if negb content_match then
    content_diff ←
      try_except
        (content_a ← json_loads (Artifact.content artifact_a);
         content_b ← json_loads (Artifact.content artifact_b);
         d ← _compute_dict_diff content_a content_b;
         mret (ContentDict d))
        caught_by_diff
        (inr (ContentStr "Raw content differs"));
    mret (diff (Some content_diff))
  else mret (diff None).

End Diff.
End Diff.

(** ** Alert generator ([watchtower.utils.alerts]) *)

Module Alert.
Section Alert.
Context `{PyRuntime}.

Record t : Type := mk {
  alert_type : string;
  severity : string;
  message : string;
  details : list (string * pyval);
  timestamp : Z
}.

Definition to_dict (a : t) : list (string * pyval) :=
  [("alert_type", PStr (alert_type a));
   ("severity", PStr (severity a));
   ("message", PStr (message a));
   ("details", PDict (details a));
   ("timestamp", PStr (isoformat (timestamp a)))].

End Alert.
End Alert.

Module AlertGenerator.
Section AlertGenerator.
Context `{PyRuntime}.

Record t : Type := mk {
  confidence_drop_threshold : float;
  confidence_high_threshold : float
}.

#[local] Set Warnings "-inexact-float".
Definition init_default : t := mk 0.2 0.9.
#[local] Set Warnings "inexact-float".

(** The wall clock of one call: [clock k] is what [datetime.utcnow()]
    returns the [k]-th time an [Alert] is constructed (counting from 0). *)
Definition clock_t : Type := nat -> Z.

(** [alerts.append(Alert(alert_type=..., severity=..., message=...,
    details=...))]: no timestamp is passed, so the alert reads the clock.
    Every alert constructed so far is in [alerts]. *)
Definition append_alert (clock : clock_t) (alerts : list Alert.t)
    (alert_type severity message : string) (details : list (string * pyval))
    : list Alert.t :=
  (alerts ++ [Alert.mk alert_type severity message details (clock (length alerts))])%list.

(** [len(l)] as a Python [int]. *)
Definition len {A : Type} (l : list A) : Z := Z.of_nat (length l).

(** Body of the first loop. *)
Definition high_confidence_step (g : t) (clock : clock_t) (alerts : list Alert.t)
    (claim : Claim.t) : list Alert.t :=
  if (confidence_high_threshold g <=? Claim.confidence claim)%float then
    append_alert clock alerts "high_confidence_claim" "high"
      ("High-confidence claim detected: " ++ String.substring 0 100 (Claim.statement claim))
      [("claim_id", opt_str (Claim.id claim));
       ("confidence", PFloat (Claim.confidence claim));
       ("statement", PStr (Claim.statement claim))]
  else alerts.

(** Body of the second loop. *)
Definition well_supported_step (clock : clock_t) (alerts : list Alert.t)
    (claim : Claim.t) : list Alert.t :=
  let total_evidence :=
    (len (Claim.supporting_evidence_ids claim)
     + len (Claim.counter_evidence_ids claim))%Z in
  if (5 <=? total_evidence)%Z then
    append_alert clock alerts "well_supported_claim" "medium"
      ("Claim with substantial evidence: " ++ String.substring 0 100 (Claim.statement claim))
      [("claim_id", opt_str (Claim.id claim));
       ("total_evidence", PInt total_evidence);
       ("supporting_count", PInt (len (Claim.supporting_evidence_ids claim)));
       ("counter_count", PInt (len (Claim.counter_evidence_ids claim)))]
  else alerts.

Definition change_details (claim prev_claim : Claim.t) (confidence_change : float)
    : list (string * pyval) :=
  [("claim_id", opt_str (Claim.id claim));
   ("previous_confidence", PFloat (Claim.confidence prev_claim));
   ("current_confidence", PFloat (Claim.confidence claim));
   ("change", PFloat confidence_change)].

(** [claim.id in prev_claims_map] followed by [prev_claims_map[claim.id]]:
    the keys are strings, so a claim without identifier is not found. *)
Definition find_previous (prev_claims_map : gmap string Claim.t) (claim : Claim.t)
    : option Claim.t :=
  match Claim.id claim with
  | Some i => prev_claims_map !! i
  | None => None
  end.

(** Body of the third loop. *)
Definition comparison_step (g : t) (clock : clock_t)
    (prev_claims_map : gmap string Claim.t) (alerts : list Alert.t)
    (claim : Claim.t) : list Alert.t :=
  match find_previous prev_claims_map claim with
  | Some prev_claim =>
      let confidence_change :=
        (Claim.confidence claim - Claim.confidence prev_claim)%float in
      if (confidence_change <=? - confidence_drop_threshold g)%float then
        append_alert clock alerts "confidence_drop" "high"
          ("Significant confidence drop in claim: "
           ++ String.substring 0 100 (Claim.statement claim))
          (change_details claim prev_claim confidence_change)
      else if (confidence_drop_threshold g <=? confidence_change)%float then
        append_alert clock alerts "confidence_increase" "medium"
          ("Significant confidence increase in claim: "
           ++ String.substring 0 100 (Claim.statement claim))
          (change_details claim prev_claim confidence_change)
      else alerts
  | None => alerts
  end.

(** [if previous_claims:] holds for a non-empty list. *)
Definition list_truthy {A : Type} (l : option (list A)) : bool :=
  match l with
  | Some (_ :: _) => true
  | _ => false
  end.

Definition generate_alerts (g : t) (clock : clock_t) (claims : list Claim.t)
    (previous_claims : option (list Claim.t)) : list Alert.t :=
  let alerts := [] in
  let alerts := foldl (high_confidence_step g clock) alerts claims in
  let alerts := foldl (well_supported_step clock) alerts claims in
  if list_truthy previous_claims then
    let prev_claims_map := claims_map (default [] previous_claims) in
    foldl (comparison_step g clock prev_claims_map) alerts claims
  else alerts.

Record summary : Type := mk_summary {
  total_alerts : nat;
  severity_counts : Dict.t Z;
  type_counts : Dict.t Z;
  alerts : list (list (string * pyval))
}.

(** [for alert in alerts: ...] on the two counters;
    [severity_counts[alert.severity] += 1] reads the entry first. *)
Fixpoint summary_loop (alerts : list Alert.t) (severity_counts type_counts : Dict.t Z)
    : result (Dict.t Z * Dict.t Z) :=
  match alerts with
  | [] => inr (severity_counts, type_counts)
  | alert :: rest =>
      match Dict.get severity_counts (Alert.severity alert) with
      | None => inl (KeyError (Alert.severity alert))
      | Some n =>
          let severity_counts :=
            Dict.set severity_counts (Alert.severity alert) (n + 1)%Z in
          let type_counts :=
            Dict.set type_counts (Alert.alert_type alert)
                     (default 0%Z (Dict.get type_counts (Alert.alert_type alert)) + 1)%Z in
          summary_loop rest severity_counts type_counts
      end
  end.

Definition generate_summary (g : t) (alerts : list Alert.t) : result summary :=
  let severity_counts : Dict.t Z :=
    [("low", 0%Z); ("medium", 0%Z); ("high", 0%Z); ("critical", 0%Z)] in
  let type_counts : Dict.t Z := [] in
  counts ← summary_loop alerts severity_counts type_counts;
  mret {| total_alerts := length alerts;
          severity_counts := counts.1;
          type_counts := counts.2;
          alerts := map Alert.to_dict alerts |}.

End AlertGenerator.
End AlertGenerator.

(** ** Plugins ([watchtower.plugins]) *)

(** [Evidence(content=..., metadata=..., ...)] on values whose types are
    not known beforehand, as a configuration provides them: [content]
    has to be a [str] and [metadata] a [dict], and the validation
    library reports every rejected field in one [ValidationError]. *)
Definition evidence_init_any (content : pyval) (source : string) (metadata : pyval)
    (tool_name tool_version model_name model_version : option string)
    (timestamp : Z) : result Evidence.t :=
  match content, metadata with
  | PStr c, PDict m =>
      inr (Evidence.mk None c source m tool_name tool_version model_name
                       model_version timestamp)
  | PStr _, _ => inl (ValidationError "metadata" "dict_type")
  | _, PDict _ => inl (ValidationError "content" "string_type")
  | _, _ => inl (ValidationError "content, metadata" "string_type, dict_type")
  end.

Module SourcePlugin.

(** An instance of a concrete subclass of [SourcePlugin]: its
    properties and its two methods. [extract] also receives the reading
    of the clock. *)
Record t : Type := mk {
  name : string;
  version : string;
  description : string;
  extract : Dict.t pyval -> Z -> result (list Evidence.t);
  validate_config : Dict.t pyval -> bool
}.

(** What the base class provides when a subclass does not override. *)
Definition base_description : string := "".

Definition base_validate_config (config : Dict.t pyval) : bool := true.

End SourcePlugin.

Module ManualEntryPlugin.

Definition name : string := "manual_entry".

Definition version : string := "0.1.0".

Definition description : string := "Manual evidence entry plugin".

Definition extract (config : Dict.t pyval) (now : Z) : result (list Evidence.t) :=
  let content := default (PStr "") (Dict.get config "content") in
  let metadata := default (PDict []) (Dict.get config "metadata") in
  evidence ← evidence_init_any content "manual" metadata (Some name) (Some version)
                               None None now;
  mret [evidence].

(** ["content" in config and isinstance(config["content"], str)] *)
Definition validate_config (config : Dict.t pyval) : bool :=
  Dict.contains config "content"
  && match Dict.get config "content" with
     | Some (PStr _) => true
     | _ => false
     end.

Definition plugin : SourcePlugin.t :=
  SourcePlugin.mk name version description extract validate_config.

End ManualEntryPlugin.

Module PluginRegistry.

Record t : Type := mk { _plugins : Dict.t SourcePlugin.t }.

Definition init : t := mk Dict.empty.

(** The second component is the registry after the call. *)
Definition register (r : t) (plugin : SourcePlugin.t) : result unit * t :=
  if Dict.contains (_plugins r) (SourcePlugin.name plugin) then
    (inl (ValueError ("Plugin '" ++ SourcePlugin.name plugin
                      ++ "' is already registered")), r)
  else (inr tt, mk (Dict.set (_plugins r) (SourcePlugin.name plugin) plugin)).

Definition unregister (r : t) (plugin_name : string) : t :=
  if Dict.contains (_plugins r) plugin_name
  then mk (Dict.delete (_plugins r) plugin_name)
  else r.

Definition get_plugin (r : t) (plugin_name : string) : option SourcePlugin.t :=
  Dict.get (_plugins r) plugin_name.

Definition list_plugins (r : t) : list string := Dict.keys (_plugins r).

Definition get_all_plugins (r : t) : list SourcePlugin.t := Dict.values (_plugins r).

End PluginRegistry.

(** ** A runtime for evaluating the definitions on examples

    The digest is kept symbolic and the parser answers on a few inputs
    the way [json.loads] does; nothing is proved from these choices
    beyond the evaluations that name them. *)

Definition example_json_loads (s : string) : result pyval :=
  if String.eqb s "[1]" then inr (PList [PInt 1])
  else if String.eqb s "[2]" then inr (PList [PInt 2])
  else if String.eqb s "{}" then inr (PDict [])
  else if String.eqb s "null" then inr PNone
  else inl (JSONDecodeError "Expecting value").

Definition example_py_eq (a b : pyval) : bool :=
  match a, b with
  | PNone, PNone => true
  | PBool x, PBool y => bool_decide (x = y)
  | PInt x, PInt y => (x =? y)%Z
  | PStr x, PStr y => String.eqb x y
  | _, _ => false
  end.

Definition example_runtime : PyRuntime := {|
  sha256_hex := fun s => "sha256<" ++ s ++ ">";
  isoformat := fun t => "T" ++ pretty t;
  json_str := fun s => "'" ++ s ++ "'";
  json_float := fun f => if (f =? 0.5)%float then "0.5" else "float";
  json_loads := example_json_loads;
  py_eq := example_py_eq
|}.

Definition example_claim (i : string) (confidence : float)
    (supporting counter : list string) : Claim.t :=
  Claim.mk (Some i) "Company X received suspicious payment" confidence
           supporting counter [] (Some "watchtower") (Some "0.1.0") None None 0.

Definition example_artifact (i content : string) (parent : option string) : Artifact.t :=
  Artifact.mk (Some i) Artifact.T_derived content parent [] None None None None 0.

(** The double quote character, as a string. *)
Definition quote : string := String (Ascii.ascii_of_nat 34) EmptyString.

(** The texts [{"a": 1}] and [{"a": 2, "b": 3}]. *)
Definition object_text_1 : string := "{" ++ quote ++ "a" ++ quote ++ ": 1}".

Definition object_text_2 : string :=
  "{" ++ quote ++ "a" ++ quote ++ ": 2, " ++ quote ++ "b" ++ quote ++ ": 3}".

(** The example runtime with a parser that answers on these two texts. *)
Definition object_runtime : PyRuntime := {|
  sha256_hex := @sha256_hex example_runtime;
  isoformat := @isoformat example_runtime;
  json_str := @json_str example_runtime;
  json_float := @json_float example_runtime;
  json_loads := fun s =>
    if String.eqb s object_text_1 then inr (PDict [("a", PInt 1)])
    else if String.eqb s object_text_2 then inr (PDict [("a", PInt 2); ("b", PInt 3)])
    else inl (JSONDecodeError "Expecting value");
  py_eq := example_py_eq
|}.

(** ** Vocabulary of the properties *)

(** The failures the specification files under "ValidationError": a
    field constraint rejected by the validation library, or the
    evidence-reference check of [model_post_init]. *)
Definition is_ValidationError (e : exn) : Prop :=
  (exists field kind, e = ValidationError field kind)
  \/ e = ValueError Claim.no_evidence_msg.

(** The failure the specification calls "ReferentialIntegrityError". *)
Definition is_ReferentialIntegrityError (e : exn) : Prop :=
  exists evidence_id, e = ValueError ("Evidence not found: " ++ evidence_id).

(** The walk that [get_artifact_lineage] is meant to perform, as a
    relation: [chain s current l] when following [parent_artifact_id]
    from [current] ends at an absent, empty or unknown identifier and
    [l] lists the artifacts met, the one met last first. *)
Inductive chain (s : ArtifactStore.t) : option string -> list Artifact.t -> Prop :=
| chain_absent (current : option string) :
    truthy current = false -> chain s current []
| chain_unknown (i : string) :
    truthy (Some i) = true -> ArtifactStore.get_artifact s i = None ->
    chain s (Some i) []
| chain_parent (i : string) (a : Artifact.t) (l : list Artifact.t) :
    truthy (Some i) = true -> ArtifactStore.get_artifact s i = Some a ->
    chain s (Artifact.parent_artifact_id a) l ->
    chain s (Some i) (l ++ [a]).

(** No artifact is its own ancestor: identifiers can be ranked so that
    a stored parent ranks below its child. *)
Definition acyclic (s : ArtifactStore.t) : Prop :=
  exists rank : string -> nat,
    forall (i p : string) (a : Artifact.t),
      ArtifactStore.get_artifact s i = Some a ->
      Artifact.parent_artifact_id a = Some p ->
      truthy (Some p) = true ->
      is_Some (ArtifactStore.get_artifact s p) ->
      rank p < rank i.

(** A store in which an artifact names itself as parent. *)
Definition self_parent_store : ArtifactStore.t :=
  ArtifactStore.mk [("a", example_artifact "a" "x" (Some "a"))].

(** A store with a self-parent artifact and, beside it, an artifact
    without parent. *)
Definition mixed_store : ArtifactStore.t :=
  ArtifactStore.mk [("a", example_artifact "a" "x" (Some "a"));
                    ("b", example_artifact "b" "y" None)].

(** Two versions of a report, the second naming the first as parent. *)
Definition two_version_store : ArtifactStore.t :=
  let s1 := (ArtifactStore.store_artifact ArtifactStore.init 1 "u1" Artifact.T_report
               "v1" None None None None None None).2 in
  (ArtifactStore.store_artifact s1 2 "u2" Artifact.T_report "v2" (Some "u1")
     None None None None None).2.

(** [i] identifies a claim of the sequence that enters the comparison. *)
Definition has_id (claims : list Claim.t) (i : string) : Prop :=
  i <> "" /\ exists c, c ∈ claims /\ Claim.id c = Some i.

(** One step of the comprehension that builds [claims_map]. *)
Definition claims_map_step (m : gmap string Claim.t) (c : Claim.t)
    : gmap string Claim.t :=
  if truthy (Claim.id c) then <[default "" (Claim.id c) := c]> m else m.

(** What one iteration of the loop over [common_ids] appends. *)
Definition modified_at `{PyRuntime} (ma mb : gmap string Claim.t) (i : string)
    : list Diff.modified_claim :=
  match ma !! i, mb !! i with
  | Some a, Some b =>
      if Diff.differs a b then [Diff.modified_entry i a b] else []
  | _, _ => []
  end.

Definition high_or_medium (a : Alert.t) : Prop :=
  Alert.severity a = "high" \/ Alert.severity a = "medium".

Definition is_dict (v : pyval) : bool :=
  match v with
  | PDict _ => true
  | _ => false
  end.

(** [a] does not sort after [b]: its key is not less. *)
Definition not_below {A : Type} (lt : A -> A -> bool) (a b : A) : Prop :=
  lt a b = false.

(** Every stored claim has an identifier, at least one evidence
    reference, a confidence within [0, 1], and references only evidence
    that the evidence store holds. *)
Definition claims_ok (es : EvidenceStore.t) (cs : ClaimStore.t) : Prop :=
  forall c, c ∈ Dict.values (ClaimStore._claims cs) ->
    is_Some (Claim.id c)
    /\ Claim.evidence_refs c <> []
    /\ (0 <=? Claim.confidence c)%float = true
    /\ (Claim.confidence c <=? 1)%float = true
    /\ forall i, i ∈ Claim.evidence_refs c -> is_Some (EvidenceStore.get_evidence es i).

(** What one iteration of the loop over [common_keys] appends. *)
Definition modified_key_at `{PyRuntime} (da db : Dict.t pyval) (k : string)
    : list Diff.modified_key :=
  match Dict.get da k, Dict.get db k with
  | Some a, Some b =>
      if negb (py_eq a b) then [Diff.mk_modified_key k a b] else []
  | _, _ => []
  end.

Definition is_high_confidence (g : AlertGenerator.t) (c : Claim.t) : bool :=
  (AlertGenerator.confidence_high_threshold g <=? Claim.confidence c)%float.

Definition is_well_supported (c : Claim.t) : bool :=
  (5 <=? AlertGenerator.len (Claim.supporting_evidence_ids c)
         + AlertGenerator.len (Claim.counter_evidence_ids c))%Z.

(** The severities [generate_summary] has a counter for. *)
Definition known_severities : list string := ["low"; "medium"; "high"; "critical"].

(** Number of alerts whose field [f] is [k]. *)
Definition count_by (f : Alert.t -> string) (k : string) (alerts : list Alert.t) : Z :=
  Z.of_nat (length (List.filter (fun a => String.eqb (f a) k) alerts)).

(** The stores obtained from the empty one by [store_artifact] when each
    identifier drawn is new: not yet a key, and not named as parent by
    the artifact stored or by one stored before. *)
Inductive built : ArtifactStore.t -> Prop :=
| built_init : built ArtifactStore.init
| built_store (s : ArtifactStore.t) (now : Z) (uuid : string)
    (artifact_type : Artifact.artifact_type_t) (content : string)
    (parent : option string) (metadata : option (list (string * pyval)))
    (tool_name tool_version model_name model_version : option string) :
    built s ->
    ArtifactStore.get_artifact s uuid = None ->
    parent <> Some uuid ->
    (forall j b, ArtifactStore.get_artifact s j = Some b ->
                 Artifact.parent_artifact_id b <> Some uuid) ->
    built (ArtifactStore.store_artifact s now uuid artifact_type content parent
             metadata tool_name tool_version model_name model_version).2.

(** The loop of [get_artifact_lineage] moves from [i] to [j]: [i] is
    not empty, it is stored, and its artifact names [j] as parent. *)
Definition parent_step (s : ArtifactStore.t) (i j : string) : Prop :=
  i <> "" /\ exists a, ArtifactStore.get_artifact s i = Some a
                       /\ Artifact.parent_artifact_id a = Some j.

(** The walk from [i] runs into a cycle of parent links: it reaches an
    identifier that is its own ancestor. *)
Definition loops_from (s : ArtifactStore.t) (i : string) : Prop :=
  exists j, rtc (parent_step s) i j /\ tc (parent_step s) j j.

(** [walks s current ids]: the loop, started at [current], goes through
    the identifiers [ids] one after the other without ending. *)
Inductive walks (s : ArtifactStore.t) : option string -> list string -> Prop :=
| walks_nil (current : option string) : walks s current []
| walks_cons (i : string) (a : Artifact.t) (ids : list string) :
    i <> "" -> ArtifactStore.get_artifact s i = Some a ->
    walks s (Artifact.parent_artifact_id a) ids ->
    walks s (Some i) (i :: ids).





(** * Properties *)

(** ** Order of strings *)

Lemma ascii_compare_trans_lt (a b c : Ascii.ascii) :
  Ascii.compare a b = Lt -> Ascii.compare b c = Lt -> Ascii.compare a c = Lt.
Proof.
  unfold Ascii.compare. rewrite !N.compare_lt_iff. lia.
Qed.

Lemma string_compare_trans (a : string) : forall b c,
  String.compare a b <> Gt -> String.compare b c <> Gt -> String.compare a c <> Gt.
Proof.
  induction a as [|x a IH]; intros [|y b] [|z c]; simpl; try congruence.
  destruct (Ascii.compare x y) eqn:Hxy; try congruence;
    destruct (Ascii.compare y z) eqn:Hyz; try congruence; intros Hab Hbc.
  - apply Ascii.compare_eq_iff in Hxy, Hyz. subst.
    unfold Ascii.compare. rewrite N.compare_refl. eauto.
  - apply Ascii.compare_eq_iff in Hxy. subst. by rewrite Hyz.
  - apply Ascii.compare_eq_iff in Hyz. subst. by rewrite Hxy.
  - by rewrite (ascii_compare_trans_lt x y z).
Qed.

Global Instance str_le_trans : Transitive str_le.
Proof.
  intros a b c. unfold str_le, String.leb. intros Hab Hbc.
  pose proof (string_compare_trans a b c) as Ht.
  destruct (String.compare a b); destruct (String.compare b c);
    destruct (String.compare a c); try done; exfalso; by apply Ht.
Qed.

Global Instance str_le_total : Total str_le.
Proof. intros a b. apply String.leb_total. Qed.

Global Instance str_le_antisym : AntiSymm eq str_le.
Proof. intros a b. apply String.leb_antisym. Qed.

Lemma sorted_permutation (l1 l2 : list string) :
  l1 ≡ₚ l2 -> sorted l1 = sorted l2.
Proof.
  intros Hp. unfold sorted.
  apply (StronglySorted_unique str_le).
  - apply StronglySorted_merge_sort; apply _.
  - apply StronglySorted_merge_sort; apply _.
  - by rewrite !merge_sort_Permutation.
Qed.

Example sorted_code_points :
  sorted ["b"; "a"; "B"; "ab"; ""] = [""; "B"; "a"; "ab"; "b"].
Proof. reflexivity. Qed.

Example sort_desc_stable :
  sort_desc (fun a b => (a.1 <? b.1)%Z) [(1%Z, "x"); (2%Z, "y"); (1%Z, "z"); (2%Z, "w")]
  = [(2%Z, "y"); (2%Z, "w"); (1%Z, "x"); (1%Z, "z")].
Proof. reflexivity. Qed.

Example slice_to_negative : slice_to (-1) [1; 2; 3] = [1; 2] /\ slice_to 5 [1; 2; 3] = [1; 2; 3].
Proof. split; reflexivity. Qed.

(** ** Comparisons of floats *)

Lemma SFcompare_antisym (x y : spec_float) :
  SFcompare y x = option_map CompOpp (SFcompare x y).
Proof.
  destruct x as [sx|sx| |sx mx ex], y as [sy|sy| |sy my ey]; simpl; try done;
    try (by destruct sx); try (by destruct sy); try (by destruct sx, sy).
  change (IntDef.Z.compare ?a ?b) with (Z.compare a b).
  change (PosDef.Pos.compare_cont Eq ?a ?b) with (Pos.compare a b).
  rewrite (Z.compare_antisym ex ey), (Pos.compare_antisym mx my).
  destruct sx, sy; try done;
    destruct (Z.compare ex ey); simpl; try done;
    by destruct (Pos.compare mx my).
Qed.

Lemma float_ltb_not_leb (x y : float) :
  (x <? y)%float = true -> (y <=? x)%float = false.
Proof.
  rewrite ltb_spec, leb_spec. unfold SFltb, SFleb.
  rewrite (SFcompare_antisym (Prim2SF x) (Prim2SF y)).
  by destruct (SFcompare (Prim2SF x) (Prim2SF y)) as [[]|].
Qed.

(** ** Claim construction *)

(** C2: a claim without any evidence reference is rejected, a claim
    whose confidence is below 0 or above 1 is rejected, and a claim with
    a reference in either list and a confidence within [0, 1] is built,
    with the fields it was given and no identifier. *)
Theorem claim_init_validation (statement : string) (confidence : float)
    (supporting counter : list string) (metadata : list (string * pyval))
    (tool_name tool_version model_name model_version : option string)
    (timestamp : Z) :
  let built := Claim.init statement confidence supporting counter metadata
                          tool_name tool_version model_name model_version
                          timestamp in
  (supporting = [] -> counter = [] ->
     exists e, built = inl e /\ is_ValidationError e)
  /\ ((confidence <? 0)%float = true \/ (1 <? confidence)%float = true ->
        exists e, built = inl e /\ is_ValidationError e)
  /\ (supporting <> [] \/ counter <> [] ->
      (0 <=? confidence)%float = true -> (confidence <=? 1)%float = true ->
        built = inr (Claim.mk None statement confidence supporting counter
                              metadata tool_name tool_version model_name
                              model_version timestamp)).
Proof.
  unfold Claim.init. repeat split.
  - intros -> ->.
    destruct (confidence <=? 1)%float; simpl;
      [destruct (0 <=? confidence)%float; simpl|];
      eexists; (split; [reflexivity|]); unfold is_ValidationError; eauto.
  - intros [Hlo|Hhi].
    + apply float_ltb_not_leb in Hlo. rewrite Hlo.
      destruct (confidence <=? 1)%float; simpl;
        eexists; (split; [reflexivity|]); left; eauto.
    + apply float_ltb_not_leb in Hhi. rewrite Hhi. simpl.
      eexists; split; [reflexivity|]. left; eauto.
  - intros Hrefs -> ->. simpl. unfold Claim.model_post_init. simpl.
    destruct supporting, counter; simpl; try done. by destruct Hrefs.
Qed.

Lemma claim_init_validation_witness :
  (exists e, Claim.init "s" 0.5 [] [] [] None None None None 0 = inl e
             /\ is_ValidationError e)
  /\ (exists e, Claim.init "s" 1.5 ["e1"] [] [] None None None None 0 = inl e
                /\ is_ValidationError e)
  /\ Claim.init "s" 1 [] ["e1"] [] None None None None 0
     = inr (Claim.mk None "s" 1 [] ["e1"] [] None None None None 0).
Proof.
  pose proof (claim_init_validation "s" 0.5 [] [] [] None None None None 0) as (H1 & _ & _).
  pose proof (claim_init_validation "s" 1.5 ["e1"] [] [] None None None None 0) as (_ & H2 & _).
  pose proof (claim_init_validation "s" 1 [] ["e1"] [] None None None None 0) as (_ & _ & H3).
  split; [|split].
  - by apply H1.
  - apply H2. by right.
  - apply H3; [by right| |]; reflexivity.
Defined.

(** ** Hashes and fingerprints *)

Section Fingerprints.
Context `{PyRuntime}.

Lemma provenance_cases (name version : option string) :
  provenance name version
  = match name with
    | Some n =>
        if String.eqb n "" then PNone
        else PStr (n ++ ":" ++ default "None" version)
    | None => PNone
    end.
Proof.
  unfold provenance, truthy. destruct name as [n|]; [|done]. simpl.
  by destruct (String.eqb n "").
Qed.

(** C3: the content hash of an evidence record is the SHA-256 hex digest
    of its content, and its fingerprint is the SHA-256 hex digest of the
    JSON object with members, in key order, model, sha256 (the content
    hash), timestamp (ISO-8601) and tool, where tool and model are the
    string name:version, or null when the name is absent or empty. *)
Theorem evidence_sha256_fingerprint (e : Evidence.t) :
  Evidence.sha256 e = sha256_hex (Evidence.content e)
  /\ Evidence.fingerprint e
     = sha256_hex
         ("{" ++ String.concat ", "
            [json_str "model" ++ ": "
               ++ json_dumps (provenance (Evidence.model_name e) (Evidence.model_version e));
             json_str "sha256" ++ ": "
               ++ json_str (sha256_hex (Evidence.content e));
             json_str "timestamp" ++ ": "
               ++ json_str (isoformat (Evidence.timestamp e));
             json_str "tool" ++ ": "
               ++ json_dumps (provenance (Evidence.tool_name e) (Evidence.tool_version e))]
          ++ "}")
  /\ (forall name version : option string,
        json_dumps (provenance name version)
        = match name with
          | Some n =>
              if String.eqb n "" then "null"
              else json_str (n ++ ":" ++ default "None" version)
          | None => "null"
          end).
Proof.
  split; [reflexivity|]. split; [reflexivity|].
  intros name version. rewrite provenance_cases.
  destruct name as [n|]; [|done]. by destruct (String.eqb n "").
Qed.

(** C8: the run fingerprint of a claim is unchanged when its supporting
    identifiers and its counter identifiers are each permuted, while
    [evidence_refs] is the supporting list followed by the counter list,
    in the order given. *)
Theorem run_fingerprint_permutation (i : option string) (statement : string)
    (confidence : float) (supporting supporting' counter counter' : list string)
    (metadata : list (string * pyval))
    (tool_name tool_version model_name model_version : option string)
    (timestamp : Z) :
  supporting ≡ₚ supporting' -> counter ≡ₚ counter' ->
  let c := Claim.mk i statement confidence supporting counter metadata
                    tool_name tool_version model_name model_version timestamp in
  let c' := Claim.mk i statement confidence supporting' counter' metadata
                     tool_name tool_version model_name model_version timestamp in
  Claim.run_fingerprint c = Claim.run_fingerprint c'
  /\ Claim.evidence_refs c = (supporting ++ counter)%list
  /\ Claim.evidence_refs c' = (supporting' ++ counter')%list.
Proof.
  intros Hs Hc c c'. split; [|done].
  unfold Claim.run_fingerprint, Claim.fingerprint_data. simpl.
  by rewrite (sorted_permutation _ _ Hs), (sorted_permutation _ _ Hc).
Qed.

End Fingerprints.

Lemma run_fingerprint_permutation_witness :
  let c := example_claim "c1" 0.5 ["e2"; "e1"] ["e4"; "e3"] in
  let c' := example_claim "c1" 0.5 ["e1"; "e2"] ["e3"; "e4"] in
  @Claim.run_fingerprint example_runtime c = @Claim.run_fingerprint example_runtime c'
  /\ Claim.evidence_refs c = ["e2"; "e1"; "e4"; "e3"]
  /\ Claim.evidence_refs c' = ["e1"; "e2"; "e3"; "e4"].
Proof.
  apply (@run_fingerprint_permutation example_runtime); apply perm_swap.
Defined.

(** ** Listing *)

Example list_evidence_limit_zero :
  let s0 := EvidenceStore.init in
  let s1 := (EvidenceStore.store_evidence s0 10 "u1" "a" "manual" None None None None None).2 in
  let s2 := (EvidenceStore.store_evidence s1 30 "u2" "b" "manual" None None None None None).2 in
  let s3 := (EvidenceStore.store_evidence s2 20 "u3" "c" "api" None None None None None).2 in
  map Evidence.content (EvidenceStore.list_evidence s3 None None (Some 0%Z)) = ["b"; "c"; "a"]
  /\ map Evidence.content (EvidenceStore.list_evidence s3 None None (Some 2%Z)) = ["b"; "c"]
  /\ map Evidence.content (EvidenceStore.list_evidence s3 (Some "manual") (Some 10%Z) None)
     = ["b"; "a"]
  /\ map Evidence.content (EvidenceStore.list_evidence s3 None None (Some (-1)%Z)) = ["b"; "c"].
Proof. repeat split. Qed.

(** ** Referential integrity of the claim store *)

Lemma validate_evidence_inl (es : EvidenceStore.t) (ids : list string) (e : exn) :
  ClaimStore.validate_evidence es ids = inl e ->
  exists i, i ∈ ids /\ EvidenceStore.get_evidence es i = None
            /\ e = ValueError ("Evidence not found: " ++ i).
Proof.
  induction ids as [|i ids IH]; simpl; [done|].
  destruct (EvidenceStore.get_evidence es i) eqn:Hi.
  - intros (j & Hj & Hrest)%IH. exists j. split; [by right|done].
  - intros [= <-]. exists i. split; [by left|done].
Qed.

Lemma validate_evidence_inr (es : EvidenceStore.t) (ids : list string) (u : unit) :
  ClaimStore.validate_evidence es ids = inr u ->
  forall i, i ∈ ids -> is_Some (EvidenceStore.get_evidence es i).
Proof.
  induction ids as [|j ids IH]; simpl; intros Hv i Hi.
  - by apply elem_of_nil in Hi.
  - destruct (EvidenceStore.get_evidence es j) eqn:Hj; [|done].
    apply elem_of_cons in Hi as [->|Hi]; [by rewrite Hj|by apply IH].
Qed.

Lemma init_error_not_referential (e : exn) :
  is_ValidationError e -> ~ is_ReferentialIntegrityError e.
Proof.
  intros [(f & k & ->)| -> ] [i Hi]; [done|].
  cbv in Hi. congruence.
Qed.

Lemma claim_init_error statement confidence supporting counter metadata
    tool_name tool_version model_name model_version timestamp (e : exn) :
  Claim.init statement confidence supporting counter metadata tool_name
             tool_version model_name model_version timestamp = inl e ->
  is_ValidationError e.
Proof.
  unfold Claim.init, Claim.model_post_init.
  destruct (confidence <=? 1)%float; simpl; [|intros [= <-]; left; eauto].
  destruct (0 <=? confidence)%float; simpl; [|intros [= <-]; left; eauto].
  destruct (_ =? 0)%nat; simpl; [|done]. intros [= <-]. by right.
Qed.

(** C1: [store_claim] raises the "Evidence not found" error exactly when
    some identifier among the supporting and counter identifiers is not
    in the evidence store when the call is made; the check comes first,
    so the claim is constructed only when every identifier is present;
    and whenever the call raises, the claim store, hence its count, is
    what it was. *)
Theorem store_claim_referential_integrity (es : EvidenceStore.t) (s : ClaimStore.t)
    (now : Z) (uuid : string) (statement : string) (confidence : float)
    (supporting : list string) (counter : option (list string))
    (metadata : option (list (string * pyval)))
    (tool_name tool_version model_name model_version : option string) :
  let r := ClaimStore.store_claim es s now uuid statement confidence supporting
             counter metadata tool_name tool_version model_name model_version in
  let absent := exists i, i ∈ (supporting ++ default [] counter)%list
                          /\ EvidenceStore.get_evidence es i = None in
  ((exists e, r.1 = inl e /\ is_ReferentialIntegrityError e) <-> absent)
  /\ (~ absent ->
      forall e, r.1 = inl e <->
                Claim.init statement confidence supporting (default [] counter)
                           (default [] metadata) tool_name tool_version model_name
                           model_version now = inl e)
  /\ (forall e, r.1 = inl e ->
        r.2 = s /\ ClaimStore.count_claims r.2 = ClaimStore.count_claims s).
Proof.
  intros r absent. subst r absent. unfold ClaimStore.store_claim.
  destruct (ClaimStore.validate_evidence es _) as [e0|u] eqn:Hv.
  - apply validate_evidence_inl in Hv as (i & Hi & Hnone & ->). simpl.
    split; [|split].
    + split; [by eauto|]. intros _. eexists. split; [done|]. by exists i.
    + intros Habs. destruct Habs. eauto.
    + done.
  - pose proof (validate_evidence_inr _ _ _ Hv) as Hall.
    assert (Hno : ~ exists i, i ∈ (supporting ++ default [] counter)%list
                              /\ EvidenceStore.get_evidence es i = None).
    { intros (i & Hi & Hnone). apply Hall in Hi as [x Hx]. congruence. }
    destruct (Claim.init _ _ _ _ _ _ _ _ _ _) as [e1|c] eqn:Hinit; simpl.
    + split; [|split]; [| |done].
      * split; [|done]. intros (e & [= <-] & Hre).
        by apply claim_init_error, init_error_not_referential in Hinit.
      * done.
    + split; [|split]; [| |done].
      * split; [|done]. by intros (e & [=] & _).
      * done.
Qed.

Example store_claim_missing_evidence :
  let e1 := EvidenceStore.store_evidence EvidenceStore.init 1 "e1" "bank statement"
              "manual" None None None None None in
  let es := e1.2 in
  let ok := ClaimStore.store_claim es ClaimStore.init 2 "c1" "claim" 0.5 ["e1"] None
              None None None None None in
  let bad := ClaimStore.store_claim es ok.2 3 "c2" "claim" 7 ["e1"] (Some ["missing-id"])
               None None None None None in
  ClaimStore.count_claims ok.2 = 1
  /\ bad.1 = inl (ValueError "Evidence not found: missing-id")
  /\ ClaimStore.count_claims bad.2 = 1.
Proof. repeat split. Qed.

(** ** Dictionaries *)

Lemma dict_get_set {V : Type} (d : Dict.t V) (k k' : string) (v : V) :
  Dict.get (Dict.set d k v) k' = if decide (k = k') then Some v else Dict.get d k'.
Proof.
  induction d as [|[j w] d IH]; simpl.
  - by destruct (decide (k = k')).
  - destruct (decide (j = k)) as [->|Hjk]; simpl.
    + by destruct (decide (k = k')).
    + destruct (decide (j = k')) as [->|Hjk'].
      * by rewrite decide_False by done.
      * apply IH.
Qed.

Lemma dict_get_None {V : Type} (d : Dict.t V) (k : string) :
  Dict.get d k = None <-> k ∉ Dict.keys d.
Proof.
  unfold Dict.keys. induction d as [|[j w] d IH]; simpl.
  - split; [intros _; apply not_elem_of_nil|done].
  - rewrite not_elem_of_cons. destruct (decide (j = k)) as [->|Hjk].
    + split; [done|]. by intros [? _].
    + rewrite IH. split; [intros ?; split; [congruence|done]|by intros [_ ?]].
Qed.

Lemma dict_keys_set {V : Type} (d : Dict.t V) (k : string) (v : V) :
  k ∈ Dict.keys d -> Dict.keys (Dict.set d k v) = Dict.keys d.
Proof.
  unfold Dict.keys. induction d as [|[j w] d IH]; simpl.
  - by intros ?%elem_of_nil.
  - intros Hk. destruct (decide (j = k)) as [->|Hjk]; simpl; [done|].
    apply elem_of_cons in Hk as [->|Hk]; [done|]. by rewrite IH.
Qed.

(** ** Artifact lineage *)

Lemma lineage_loop_chain (s : ArtifactStore.t) (fuel : nat) :
  forall current acc r,
    ArtifactStore.lineage_loop fuel s current acc = Some r ->
    exists l, chain s current l /\ r = (l ++ acc)%list.
Proof.
  induction fuel as [|fuel IH]; simpl; intros current acc r; [done|].
  destruct (truthy current) eqn:Ht.
  - destruct current as [i|]; [|done]. simpl.
    destruct (ArtifactStore.get_artifact s i) as [a|] eqn:Ha.
    + intros (l & Hl & ->)%IH. exists (l ++ [a])%list.
      split; [by eapply chain_parent|]. by rewrite <- app_assoc.
    + intros [= <-]. exists []. split; [by apply chain_unknown|done].
  - intros [= <-]. exists []. split; [by apply chain_absent|done].
Qed.

Lemma chain_lineage_loop (s : ArtifactStore.t) (current : option string)
    (l : list Artifact.t) :
  chain s current l ->
  forall acc fuel, length l < fuel ->
    ArtifactStore.lineage_loop fuel s current acc = Some (l ++ acc)%list.
Proof.
  induction 1 as [current Ht|i Ht Ha|i a l Ht Ha Hl IH]; intros acc [|fuel] Hf;
    try (simpl in Hf; lia); simpl.
  - by rewrite Ht.
  - simpl in Ht. rewrite Ht. simpl. by rewrite Ha.
  - simpl in Ht. rewrite Ht. simpl. rewrite Ha.
    rewrite length_app in Hf. simpl in Hf.
    rewrite IH by lia. by rewrite <- app_assoc.
Qed.

Lemma acyclic_chain (s : ArtifactStore.t) :
  acyclic s -> forall i, exists l, chain s (Some i) l.
Proof.
  intros [rank Hrank] i.
  assert (Hn : rank i < S (rank i)) by lia. revert Hn.
  generalize (S (rank i)) as n. intros n. revert i.
  induction n as [|n IH]; intros i Hn; [lia|].
  destruct (truthy (Some i)) eqn:Ht; [|exists []; by apply chain_absent].
  destruct (ArtifactStore.get_artifact s i) as [a|] eqn:Ha;
    [|exists []; by apply chain_unknown].
  destruct (Artifact.parent_artifact_id a) as [p|] eqn:Hp.
  - destruct (truthy (Some p)) eqn:Htp.
    + destruct (ArtifactStore.get_artifact s p) as [b|] eqn:Hb.
      * destruct (IH p) as [l Hl].
        -- assert (rank p < rank i) by (eapply Hrank; eauto). lia.
        -- exists (l ++ [a])%list. eapply chain_parent; eauto. by rewrite Hp.
      * exists ([] ++ [a])%list. eapply chain_parent; eauto.
        rewrite Hp. by apply chain_unknown.
    + exists ([] ++ [a])%list. eapply chain_parent; eauto.
      rewrite Hp. by apply chain_absent.
  - exists ([] ++ [a])%list. eapply chain_parent; eauto.
    rewrite Hp. by apply chain_absent.
Qed.

Lemma chain_last (s : ArtifactStore.t) (current : option string) (l : list Artifact.t) :
  chain s current l ->
  match last l with
  | Some a => exists i, current = Some i /\ ArtifactStore.get_artifact s i = Some a
  | None => truthy current = false
            \/ exists i, current = Some i /\ ArtifactStore.get_artifact s i = None
  end.
Proof.
  destruct 1 as [current Ht|i Ht Ha|i a l Ht Ha Hl]; simpl.
  - by left.
  - right. by exists i.
  - rewrite last_snoc. by exists i.
Qed.

Lemma chain_links (s : ArtifactStore.t) (current : option string) (l : list Artifact.t) :
  chain s current l ->
  (forall a, head l = Some a ->
     truthy (Artifact.parent_artifact_id a) = false
     \/ exists p, Artifact.parent_artifact_id a = Some p
                  /\ ArtifactStore.get_artifact s p = None)
  /\ (forall k x y, l !! k = Some x -> l !! S k = Some y ->
        exists p, Artifact.parent_artifact_id y = Some p
                  /\ ArtifactStore.get_artifact s p = Some x).
Proof.
  induction 1 as [current Ht|i Ht Ha|i a l Ht Ha Hl [IHh IHl]]; [done|done|].
  pose proof (chain_last _ _ _ Hl) as Hlast.
  split.
  - intros x. destruct l as [|y l]; simpl.
    + intros [= <-]. simpl in Hlast. destruct Hlast as [?|(p & ? & ?)]; [by left|].
      right. by exists p.
    + intros [= <-]. by apply IHh.
  - intros k x y Hx Hy.
    destruct (decide (S k < length l)) as [Hlt|Hge].
    + rewrite lookup_app_l in Hx by lia. rewrite lookup_app_l in Hy by done.
      by eapply IHl.
    + assert (Hk : S k = length l).
      { apply lookup_lt_Some in Hy. rewrite length_app in Hy. simpl in Hy. lia. }
      rewrite lookup_app_l in Hx by lia.
      rewrite lookup_app_r in Hy by lia.
      replace (S k - length l) with 0 in Hy by lia. simpl in Hy.
      injection Hy as <-.
      assert (Hlx : last l = Some x).
      { rewrite last_lookup. by replace (pred (length l)) with k by lia. }
      rewrite Hlx in Hlast. destruct Hlast as (p & Hp & Hget). by exists p.
Qed.

Lemma chain_parent_step (s : ArtifactStore.t) (i k : string) (l : list Artifact.t) :
  chain s (Some i) l -> parent_step s i k ->
  exists l', chain s (Some k) l' /\ length l = S (length l').
Proof.
  intros Hl (Hne & a & Ha & Hp).
  inversion Hl as [c Ht|j Ht Hnone|j b l' Ht Hb Hl']; subst.
  - simpl in Ht. by apply negb_false_iff, String.eqb_eq in Ht.
  - congruence.
  - assert (b = a) as -> by congruence. rewrite Hp in Hl'.
    exists l'. split; [done|]. rewrite length_app. simpl. lia.
Qed.

Lemma chain_rtc (s : ArtifactStore.t) (i j : string) :
  rtc (parent_step s) i j ->
  forall l, chain s (Some i) l ->
    exists l', chain s (Some j) l' /\ length l' <= length l.
Proof.
  induction 1 as [i|i k j Hik Hkj IH]; intros l Hl; [by exists l|].
  destruct (chain_parent_step s i k l Hl Hik) as (l1 & Hl1 & Hlen).
  destruct (IH l1 Hl1) as (l2 & Hl2 & Hle). exists l2. split; [done|lia].
Qed.

Lemma chain_no_cycle (s : ArtifactStore.t) (n : nat) :
  forall j l, length l <= n -> chain s (Some j) l -> ~ tc (parent_step s) j j.
Proof.
  induction n as [|n IH]; intros j l Hn Hl Hcyc.
  - assert (Hstep : exists k, parent_step s j k)
      by (inversion Hcyc; subst; eauto).
    destruct Hstep as [k Hk].
    destruct (chain_parent_step s j k l Hl Hk) as (? & _ & ?). lia.
  - assert (Hstep : exists k, parent_step s j k /\ rtc (parent_step s) k j).
    { inversion Hcyc as [? ? Hjj|? k ? Hjk Hkj]; subst.
      - exists j. by split.
      - exists k. split; [done|]. by apply tc_rtc. }
    destruct Hstep as (k & Hjk & Hkj).
    destruct (chain_parent_step s j k l Hl Hjk) as (l1 & Hl1 & Hlen).
    destruct (chain_rtc s k j Hkj l1 Hl1) as (l2 & Hl2 & Hle).
    apply (IH j l2); [lia|done|done].
Qed.

Lemma chain_not_loops (s : ArtifactStore.t) (i : string) (l : list Artifact.t) :
  chain s (Some i) l -> ~ loops_from s i.
Proof.
  intros Hl (j & Hij & Hjj).
  destruct (chain_rtc s i j Hij l Hl) as (l' & Hl' & _).
  by apply (chain_no_cycle s (length l') j l').
Qed.

Lemma lineage_loop_None_walks (s : ArtifactStore.t) (fuel : nat) :
  forall current acc,
    ArtifactStore.lineage_loop fuel s current acc = None ->
    exists ids, length ids = fuel /\ walks s current ids.
Proof.
  induction fuel as [|fuel IH]; simpl; intros current acc.
  - intros _. exists []. split; [done|constructor].
  - destruct (truthy current) eqn:Ht; [|done].
    destruct current as [i|]; [|done]. simpl in *.
    apply negb_true_iff, String.eqb_neq in Ht.
    destruct (ArtifactStore.get_artifact s i) as [a|] eqn:Ha; [|done].
    intros (ids & Hlen & Hw)%IH. exists (i :: ids).
    split; [simpl; by rewrite Hlen|by eapply walks_cons].
Qed.

Lemma walks_keys (s : ArtifactStore.t) (current : option string) (ids : list string) :
  walks s current ids ->
  forall x, x ∈ ids -> x ∈ Dict.keys (ArtifactStore._artifacts s).
Proof.
  induction 1 as [|i a ids Hne Ha Hw IH]; intros x Hx.
  - by apply elem_of_nil in Hx.
  - apply elem_of_cons in Hx as [->|Hx]; [|by apply IH].
    destruct (decide (i ∈ Dict.keys (ArtifactStore._artifacts s))) as [|Hi]; [done|].
    apply dict_get_None in Hi. unfold ArtifactStore.get_artifact in Ha. congruence.
Qed.

Lemma walks_drop (s : ArtifactStore.t) (current : option string) (ids : list string) :
  walks s current ids -> forall k, exists c, walks s c (drop k ids).
Proof.
  induction 1 as [current|i a ids Hne Ha Hw IH]; intros k.
  - exists current. rewrite drop_nil. constructor.
  - destruct k as [|k]; [|apply IH].
    exists (Some i). simpl. by eapply walks_cons.
Qed.

Lemma walks_tc (s : ArtifactStore.t) (ids : list string) :
  forall x, walks s (Some x) (x :: ids) ->
  forall k y, ids !! k = Some y -> tc (parent_step s) x y.
Proof.
  induction ids as [|y0 ids IH]; intros x Hw k y Hy; [done|].
  inversion Hw as [|? a ? Hne Ha Hw']; subst.
  inversion Hw' as [|? a0 ? Hne0 Ha0 Hw'' Hp]; subst.
  assert (Hstep : parent_step s x y0) by (split; [done|by exists a]).
  destruct k as [|k]; simpl in Hy.
  - injection Hy as <-. by apply tc_once.
  - eapply tc_l; [exact Hstep|]. eapply (IH y0); [|exact Hy].
    by eapply walks_cons.
Qed.

Lemma repeated_element (ks l : list string) :
  (forall x, x ∈ l -> x ∈ ks) -> length ks < length l ->
  exists k k' x, k < k' /\ l !! k = Some x /\ l !! k' = Some x.
Proof.
  intros Hin Hlen.
  assert (Hrep : forall l : list string, ~ NoDup l ->
             exists k k' x, k < k' /\ l !! k = Some x /\ l !! k' = Some x).
  { clear. induction l as [|x l IH]; intros Hnd; [by destruct Hnd; constructor|].
    destruct (decide (x ∈ l)) as [Hx|Hx].
    - apply list_elem_of_lookup in Hx as [j Hj]. exists 0, (S j), x.
      split; [lia|]. by split.
    - destruct IH as (k & k' & y & Hlt & Hk & Hk').
      + intros Hl. apply Hnd. by constructor.
      + exists (S k), (S k'), y. split; [lia|]. by split. }
  apply Hrep. intros Hnd.
  assert (length l <= length ks); [|lia].
  apply submseteq_length, NoDup_submseteq; done.
Qed.

Lemma walks_loops (s : ArtifactStore.t) (i : string) (ids : list string) :
  walks s (Some i) ids ->
  length (Dict.keys (ArtifactStore._artifacts s)) < length ids ->
  loops_from s i.
Proof.
  intros Hw Hlen.
  destruct (repeated_element _ ids (walks_keys s _ ids Hw) Hlen)
    as (k & k' & x & Hlt & Hk & Hk').
  exists x. split.
  - inversion Hw as [|? a rest Hne Ha Hw']; subst; [done|].
    destruct k as [|k]; simpl in Hk.
    + injection Hk as <-. apply rtc_refl.
    + apply tc_rtc. by apply (walks_tc s rest i Hw k x).
  - destruct (walks_drop s _ ids Hw k) as [c Hc].
    rewrite (drop_S ids x k Hk) in Hc.
    assert (c = Some x) as -> by (by inversion Hc).
    apply (walks_tc s _ x Hc (k' - S k)).
    rewrite lookup_drop. by replace (S k + (k' - S k)) with k' by lia.
Qed.

(** C5, as amended: for every store and identifier,
    [get_artifact_lineage] returns exactly when the walk from the
    identifier along the parent links does not run into a cycle, and
    when it does run into one the loop never exits, whatever the bound.
    A result, once returned, is returned for every larger bound; it ends
    with the artifact asked for when the store holds it (and is empty
    otherwise), each artifact in it is preceded by its parent, and the
    first one has an absent, empty or unknown parent identifier: the
    walk ends there without raising. *)
Theorem get_artifact_lineage_terminates (s : ArtifactStore.t) (artifact_id : string) :
  ((exists fuel l, ArtifactStore.get_artifact_lineage fuel s artifact_id = Some l)
   <-> ~ loops_from s artifact_id)
  /\ (loops_from s artifact_id ->
      forall fuel, ArtifactStore.get_artifact_lineage fuel s artifact_id = None)
  /\ (forall fuel l,
        ArtifactStore.get_artifact_lineage fuel s artifact_id = Some l ->
        (forall fuel', length l < fuel' ->
           ArtifactStore.get_artifact_lineage fuel' s artifact_id = Some l)
        /\ chain s (Some artifact_id) l
        /\ (forall a, ArtifactStore.get_artifact s artifact_id = Some a ->
              artifact_id <> "" -> last l = Some a)
        /\ (ArtifactStore.get_artifact s artifact_id = None -> l = [])
        /\ (forall a, head l = Some a ->
              truthy (Artifact.parent_artifact_id a) = false
              \/ exists p, Artifact.parent_artifact_id a = Some p
                           /\ ArtifactStore.get_artifact s p = None)
        /\ (forall k x y, l !! k = Some x -> l !! S k = Some y ->
              exists p, Artifact.parent_artifact_id y = Some p
                        /\ ArtifactStore.get_artifact s p = Some x)).
Proof.
  assert (Hchain : forall fuel l,
             ArtifactStore.get_artifact_lineage fuel s artifact_id = Some l ->
             chain s (Some artifact_id) l).
  { intros fuel l Hl. unfold ArtifactStore.get_artifact_lineage in Hl.
    apply lineage_loop_chain in Hl as (l' & Hl' & ->). by rewrite app_nil_r. }
  assert (Hno : (exists fuel l,
                    ArtifactStore.get_artifact_lineage fuel s artifact_id = Some l)
                -> ~ loops_from s artifact_id).
  { intros (fuel & l & Hl). eapply chain_not_loops. by eapply Hchain. }
  split; [split; [exact Hno|]|split].
  - intros Hnl.
    set (fuel := S (length (Dict.keys (ArtifactStore._artifacts s)))).
    destruct (ArtifactStore.get_artifact_lineage fuel s artifact_id) as [l|] eqn:Hl;
      [by exists fuel, l|].
    unfold ArtifactStore.get_artifact_lineage in Hl.
    apply lineage_loop_None_walks in Hl as (ids & Hlen & Hw).
    destruct Hnl. apply (walks_loops s artifact_id ids Hw). subst fuel. lia.
  - intros Hloops fuel.
    destruct (ArtifactStore.get_artifact_lineage fuel s artifact_id) as [l|] eqn:Hl;
      [|done].
    destruct Hno; [by exists fuel, l|done].
  - intros fuel l Hrun. pose proof (Hchain fuel l Hrun) as Hl.
    pose proof (chain_links _ _ _ Hl) as [Hhead Hlinks].
    repeat split; try done.
    + intros fuel' Hf. unfold ArtifactStore.get_artifact_lineage.
      rewrite (chain_lineage_loop _ _ _ Hl [] fuel' Hf). by rewrite app_nil_r.
    + intros a Ha Hne. inversion Hl as [c Ht|i Ht Hnone|i b l' Ht Hb Hl']; subst.
      * simpl in Ht. by apply negb_false_iff, String.eqb_eq in Ht.
      * congruence.
      * rewrite last_snoc. congruence.
    + intros Hnone.
      inversion Hl as [c Ht|i Ht Hn|i b l' Ht Hb Hl']; subst; [done|done|].
      congruence.
Qed.

Example get_artifact_lineage_beside_cycle :
  ArtifactStore.get_artifact_lineage 2 mixed_store "b"
  = Some [example_artifact "b" "y" None]
  /\ ~ loops_from mixed_store "b"
  /\ loops_from mixed_store "a".
Proof.
  split; [reflexivity|]. split.
  - intros (j & Hbj & Hjj).
    assert (Hnone : forall k, ~ parent_step mixed_store "b" k).
    { intros k (_ & a & Ha & Hp). by injection Ha as <-. }
    inversion Hbj as [|? k ? Hbk]; subst; [|by destruct (Hnone k)].
    inversion Hjj as [? ? Hs|? k ? Hs]; subst; by destruct (Hnone _ Hs).
  - exists "a". split; [apply rtc_refl|]. apply tc_once.
    split; [done|]. by eexists.
Qed.

(** C5, as stated, fails: on the store whose only artifact names itself
    as parent the loop never exits, whatever the bound. *)
Lemma get_artifact_lineage_cycle_diverges :
  ArtifactStore.get_artifact self_parent_store "a"
  = Some (example_artifact "a" "x" (Some "a"))
  /\ ~ exists fuel l,
         ArtifactStore.get_artifact_lineage fuel self_parent_store "a" = Some l.
Proof.
  split; [reflexivity|].
  intros (fuel & l & Hl). unfold ArtifactStore.get_artifact_lineage in Hl.
  revert Hl. generalize (@nil Artifact.t) as acc.
  induction fuel as [|fuel IH]; intros acc; simpl; [done|]. apply IH.
Qed.

Lemma init_acyclic : acyclic ArtifactStore.init.
Proof. exists (fun _ => 0). by intros i p a. Qed.

(** [store_artifact] keeps the parent links free of cycles when the
    identifier it draws is new: not a key of the store, and not named as
    parent by a stored artifact or by the artifact being stored. *)
Lemma store_artifact_acyclic (s : ArtifactStore.t) (now : Z) (uuid : string)
    (artifact_type : Artifact.artifact_type_t) (content : string)
    (parent : option string) (metadata : option (list (string * pyval)))
    (tool_name tool_version model_name model_version : option string) :
  acyclic s ->
  ArtifactStore.get_artifact s uuid = None ->
  parent <> Some uuid ->
  (forall j b, ArtifactStore.get_artifact s j = Some b ->
               Artifact.parent_artifact_id b <> Some uuid) ->
  acyclic (ArtifactStore.store_artifact s now uuid artifact_type content parent
             metadata tool_name tool_version model_name model_version).2.
Proof.
  intros [rank Hrank] Hfresh Hself Hnamed.
  exists (fun j => if decide (j = uuid)
                   then S (match parent with Some p => rank p | None => 0 end)
                   else rank j).
  intros i p a. unfold ArtifactStore.store_artifact, ArtifactStore.get_artifact.
  simpl. rewrite !dict_get_set.
  destruct (decide (uuid = i)) as [<-|Hi].
  - intros [= <-]. simpl. intros -> Ht _.
    destruct (decide (p = uuid)); [congruence|].
    destruct (decide (uuid = uuid)); [lia|done].
  - intros Ha Hp Ht. rewrite (decide_False (P := i = uuid)) by congruence.
    assert (Hpu : p <> uuid).
    { intros ->. by eapply Hnamed. }
    rewrite !decide_False by congruence. by eapply Hrank.
Qed.


(** ** Run diff *)

Lemma truthy_Some (o : option string) :
  truthy o = true <-> exists i, o = Some i /\ i <> "".
Proof.
  destruct o as [i|]; simpl.
  - rewrite negb_true_iff, String.eqb_neq. split.
    + intros Hne. by exists i.
    + by intros (j & [= <-] & Hne).
  - split; [done|]. by intros (i & [=] & _).
Qed.

Lemma claims_map_snoc (l : list Claim.t) (c : Claim.t) :
  claims_map (l ++ [c]) = claims_map_step (claims_map l) c.
Proof. unfold claims_map. by rewrite foldl_app. Qed.

Lemma claims_map_lookup (l : list Claim.t) (i : string) (c : Claim.t) :
  claims_map l !! i = Some c -> i <> "" /\ c ∈ l /\ Claim.id c = Some i.
Proof.
  induction l as [|x l IH] using rev_ind; [done|].
  rewrite claims_map_snoc. unfold claims_map_step.
  destruct (truthy (Claim.id x)) eqn:Ht.
  - apply truthy_Some in Ht as (j & Hj & Hne). rewrite Hj. simpl.
    destruct (decide (j = i)) as [->|Hji].
    + rewrite lookup_insert_eq. intros [= <-].
      split; [done|]. split; [|done]. apply elem_of_app. right. by left.
    + rewrite lookup_insert_ne by done. intros (? & ? & ?)%IH.
      split; [done|]. split; [|done]. apply elem_of_app. by left.
  - intros (? & ? & ?)%IH. split; [done|]. split; [|done].
    apply elem_of_app. by left.
Qed.

Lemma claims_map_dom (l : list Claim.t) (i : string) :
  i ∈ dom (claims_map l) <-> has_id l i.
Proof.
  rewrite elem_of_dom. split.
  - intros [c Hc]. apply claims_map_lookup in Hc as (? & ? & ?).
    split; [done|]. by exists c.
  - intros (Hne & c & Hc & Hid).
    induction l as [|x l IH] using rev_ind; [by apply elem_of_nil in Hc|].
    rewrite claims_map_snoc. unfold claims_map_step.
    apply elem_of_app in Hc as [Hc|Hc].
    + destruct (truthy (Claim.id x)); [|by apply IH].
      rewrite lookup_insert. case_decide; [done|by apply IH].
    + apply list_elem_of_singleton in Hc as ->.
      rewrite (proj2 (truthy_Some (Claim.id x))) by eauto.
      rewrite Hid. simpl. by rewrite lookup_insert_eq.
Qed.

Section RunDiff.
Context `{PyRuntime}.

Lemma modified_loop_inr (ma mb : gmap string Claim.t) (ids : list string) :
  forall acc,
    (forall i, i ∈ ids -> is_Some (ma !! i) /\ is_Some (mb !! i)) ->
    Diff.modified_loop ma mb ids acc
    = inr (acc ++ flat_map (modified_at ma mb) ids)%list.
Proof.
  induction ids as [|i ids IH]; intros acc Hids; simpl.
  - by rewrite app_nil_r.
  - destruct (Hids i) as [[a Ha] [b Hb]]; [by left|].
    unfold subscript, modified_at. rewrite Ha, Hb. simpl.
    rewrite IH by (intros j Hj; apply Hids; by right).
    destruct (Diff.differs a b); simpl; [by rewrite <- app_assoc|done].
Qed.

Lemma modified_at_elem (ma mb : gmap string Claim.t) (ids : list string)
    (e : Diff.modified_claim) :
  e ∈ flat_map (modified_at ma mb) ids <->
  Diff.id e ∈ ids
  /\ exists a b, ma !! Diff.id e = Some a /\ mb !! Diff.id e = Some b
                 /\ Diff.differs a b = true
                 /\ e = Diff.modified_entry (Diff.id e) a b.
Proof.
  rewrite list_elem_of_In, in_flat_map. setoid_rewrite <- list_elem_of_In.
  unfold modified_at. split.
  - intros (i & Hi & He).
    destruct (ma !! i) as [a|] eqn:Ha; [|by apply elem_of_nil in He].
    destruct (mb !! i) as [b|] eqn:Hb; [|by apply elem_of_nil in He].
    destruct (Diff.differs a b) eqn:Hd; [|by apply elem_of_nil in He].
    apply list_elem_of_singleton in He as ->. simpl.
    split; [done|]. by exists a, b.
  - intros (Hi & a & b & Ha & Hb & Hd & He). exists (Diff.id e).
    split; [done|]. rewrite Ha, Hb, Hd.
    by apply list_elem_of_singleton.
Qed.

Lemma modified_at_NoDup (ma mb : gmap string Claim.t) (ids : list string) :
  NoDup ids -> NoDup (map Diff.id (flat_map (modified_at ma mb) ids)).
Proof.
  induction 1 as [|i ids Hi Hnd IH]; simpl; [constructor|].
  rewrite map_app. apply NoDup_app. split; [|split; [|done]].
  - unfold modified_at. destruct (ma !! i), (mb !! i); simpl; try constructor.
    destruct (Diff.differs _ _); simpl; [|constructor].
    apply NoDup_singleton.
  - intros j Hj Hj'. 
    apply list_elem_of_In, in_map_iff in Hj' as (e & <- & He%list_elem_of_In).
    apply modified_at_elem in He as [He _].
    assert (Diff.id e = i); [|congruence].
    unfold modified_at in Hj. destruct (ma !! i), (mb !! i); simpl in Hj;
      try (by apply elem_of_nil in Hj).
    destruct (Diff.differs _ _); simpl in Hj; [|by apply elem_of_nil in Hj].
    by apply list_elem_of_singleton in Hj.
Qed.

End RunDiff.

(** C4: [compute_run_diff] returns, for any two sequences of claims,
    the identifiers present only in the second as added, those present
    only in the first as removed (a claim without identifier entering
    neither side), and one entry per identifier present in both whose
    claims differ in statement, confidence or run fingerprint; the entry
    carries the second confidence minus the first, and the total is the
    sum of the three lengths. Where an identifier occurs more than once
    in a sequence its last claim is the one compared. *)
Theorem compute_run_diff_spec `{PyRuntime} (before after : list Claim.t) :
  exists d : Diff.run_diff,
    Diff.compute_run_diff before after = inr d
    /\ (forall i, i ∈ Diff.added_claims d <-> has_id after i /\ ~ has_id before i)
    /\ (forall i, i ∈ Diff.removed_claims d <-> has_id before i /\ ~ has_id after i)
    /\ (forall e, e ∈ Diff.modified_claims d <->
          exists a b,
            claims_map before !! Diff.id e = Some a
            /\ claims_map after !! Diff.id e = Some b
            /\ (Claim.statement a <> Claim.statement b
                \/ (Claim.confidence a =? Claim.confidence b)%float = false
                \/ Claim.run_fingerprint a <> Claim.run_fingerprint b)
            /\ e = Diff.mk_modified (Diff.id e)
                     (negb (String.eqb (Claim.statement a) (Claim.statement b)))
                     (negb (Claim.confidence a =? Claim.confidence b)%float)
                     (Claim.confidence b - Claim.confidence a)%float
                     (negb (String.eqb (Claim.run_fingerprint a) (Claim.run_fingerprint b))))
    /\ (forall i c, claims_map before !! i = Some c -> c ∈ before /\ Claim.id c = Some i)
    /\ (forall i c, claims_map after !! i = Some c -> c ∈ after /\ Claim.id c = Some i)
    /\ NoDup (Diff.added_claims d)
    /\ NoDup (Diff.removed_claims d)
    /\ NoDup (map Diff.id (Diff.modified_claims d))
    /\ Diff.total_changes d
       = length (Diff.added_claims d) + length (Diff.removed_claims d)
         + length (Diff.modified_claims d).
Proof.
  unfold Diff.compute_run_diff.
  set (ma := claims_map before). set (mb := claims_map after).
  rewrite modified_loop_inr.
  2: { intros i Hi%elem_of_elements. apply elem_of_intersection in Hi as [Ha Hb].
       by rewrite <- !elem_of_dom. }
  simpl. eexists. split; [reflexivity|]. simpl.
  split; [|split; [|split; [|split; [|split; [|split; [|split; [|split]]]]]]].
  - intros i. rewrite elem_of_elements, elem_of_difference.
    subst ma mb. by rewrite !claims_map_dom.
  - intros i. rewrite elem_of_elements, elem_of_difference.
    subst ma mb. by rewrite !claims_map_dom.
  - intros e. rewrite modified_at_elem, elem_of_elements, elem_of_intersection.
    rewrite !elem_of_dom. split.
    + intros (_ & a & b & Ha & Hb & Hd & He). exists a, b.
      split; [done|]. split; [done|]. split; [|done].
      unfold Diff.differs in Hd.
      apply orb_true_iff in Hd as [Hd|Hd]; [apply orb_true_iff in Hd as [Hd|Hd]|].
      * left. by apply negb_true_iff, String.eqb_neq in Hd.
      * right; left. by apply negb_true_iff in Hd.
      * right; right. by apply negb_true_iff, String.eqb_neq in Hd.
    + intros (a & b & Ha & Hb & Hd & He). split; [by rewrite Ha, Hb|].
      exists a, b. split; [done|]. split; [done|]. split; [|done].
      unfold Diff.differs. rewrite !orb_true_iff, !negb_true_iff, !String.eqb_neq.
      tauto.
  - intros i c Hc. by apply claims_map_lookup in Hc as (_ & ? & ?).
  - intros i c Hc. by apply claims_map_lookup in Hc as (_ & ? & ?).
  - apply NoDup_elements.
  - apply NoDup_elements.
  - apply modified_at_NoDup, NoDup_elements.
  - unfold size, set_size. simpl. lia.
Qed.

#[local] Set Warnings "-inexact-float".
Example compute_run_diff_confidence_change :
  let a := [example_claim "c1" 0.5 ["e1"] []; example_claim "c2" 0.5 ["e1"] []] in
  let b := [example_claim "c1" 0.8 ["e1"] []; example_claim "c3" 0.5 ["e1"] []] in
  match @Diff.compute_run_diff example_runtime a b with
  | inr d =>
      Diff.added_claims d = ["c3"] /\ Diff.removed_claims d = ["c2"]
      /\ map Diff.id (Diff.modified_claims d) = ["c1"]
      /\ map Diff.confidence_changed (Diff.modified_claims d) = [true]
      /\ Diff.total_changes d = 3
  | inl _ => False
  end.
Proof. vm_compute. repeat split. Qed.
#[local] Set Warnings "inexact-float".

(** ** Alerts *)

Section Alerts.
Context `{PyRuntime}.

(** A loop whose body only appends keeps what was there, and the list
    its body returns for an element of the sequence is kept to the end. *)
Lemma foldl_prefix {A B : Type} (step : list B -> A -> list B) :
  (forall acc x, acc `prefix_of` step acc x) ->
  forall l acc, acc `prefix_of` foldl step acc l.
Proof.
  intros Hstep l. induction l as [|x l IH]; intros acc; simpl; [done|].
  etrans; [apply Hstep|apply IH].
Qed.


Lemma append_alert_prefix (clock : AlertGenerator.clock_t) (alerts : list Alert.t)
    (alert_type severity message : string) (details : list (string * pyval)) :
  alerts `prefix_of`
    AlertGenerator.append_alert clock alerts alert_type severity message details.
Proof. by apply prefix_app_r. Qed.

Lemma high_confidence_step_prefix g clock alerts claim :
  alerts `prefix_of` AlertGenerator.high_confidence_step g clock alerts claim.
Proof.
  unfold AlertGenerator.high_confidence_step.
  destruct (_ <=? _)%float; [apply append_alert_prefix|done].
Qed.

Lemma well_supported_step_prefix clock alerts claim :
  alerts `prefix_of` AlertGenerator.well_supported_step clock alerts claim.
Proof.
  unfold AlertGenerator.well_supported_step.
  destruct (_ <=? _)%Z; [apply append_alert_prefix|done].
Qed.

Lemma comparison_step_prefix g clock m alerts claim :
  alerts `prefix_of` AlertGenerator.comparison_step g clock m alerts claim.
Proof.
  unfold AlertGenerator.comparison_step.
  destruct (AlertGenerator.find_previous m claim); [|done].
  repeat (destruct (_ <=? _)%float); try apply append_alert_prefix; done.
Qed.


End Alerts.

#[local] Set Warnings "-inexact-float".
#[local] Set Warnings "inexact-float".

Section Summary.
Context `{PyRuntime}.

Lemma append_alert_severity clock alerts alert_type severity message details :
  Forall high_or_medium alerts ->
  severity = "high" \/ severity = "medium" ->
  Forall high_or_medium
    (AlertGenerator.append_alert clock alerts alert_type severity message details).
Proof.
  intros Ha Hs. apply Forall_app. split; [done|]. by constructor.
Qed.

Lemma foldl_Forall {A B : Type} (P : B -> Prop) (step : list B -> A -> list B) :
  (forall acc x, Forall P acc -> Forall P (step acc x)) ->
  forall l acc, Forall P acc -> Forall P (foldl step acc l).
Proof.
  intros Hstep l. induction l as [|x l IH]; intros acc Hacc; simpl; [done|].
  by apply IH, Hstep.
Qed.

Lemma generate_alerts_severity g clock claims previous :
  Forall high_or_medium (AlertGenerator.generate_alerts g clock claims previous).
Proof.
  unfold AlertGenerator.generate_alerts.
  assert (H2 : Forall high_or_medium
                 (foldl (AlertGenerator.well_supported_step clock)
                    (foldl (AlertGenerator.high_confidence_step g clock) [] claims)
                    claims)).
  { apply foldl_Forall.
    - intros acc x Hacc. unfold AlertGenerator.well_supported_step.
      destruct (_ <=? _)%Z; [|done]. apply append_alert_severity; auto.
    - apply foldl_Forall; [|constructor].
      intros acc x Hacc. unfold AlertGenerator.high_confidence_step.
      destruct (_ <=? _)%float; [|done]. apply append_alert_severity; auto. }
  destruct (AlertGenerator.list_truthy previous); [|done].
  apply foldl_Forall; [|done].
  intros acc x Hacc. unfold AlertGenerator.comparison_step.
  destruct (AlertGenerator.find_previous _ x); [|done].
  repeat (destruct (_ <=? _)%float); try done; apply append_alert_severity; auto.
Qed.

(** The counters while the loop of [generate_summary] runs over alerts
    of severity high or medium. *)
Lemma summary_loop_high_medium (alerts : list Alert.t) :
  Forall high_or_medium alerts ->
  forall (m h : Z) (type_counts : Dict.t Z),
  exists (m' h' : Z) (type_counts' : Dict.t Z),
    AlertGenerator.summary_loop alerts
      [("low", 0%Z); ("medium", m); ("high", h); ("critical", 0%Z)] type_counts
    = inr ([("low", 0%Z); ("medium", m'); ("high", h'); ("critical", 0%Z)],
           type_counts')
    /\ (m' + h' = m + h + Z.of_nat (length alerts))%Z
    /\ (m <= m')%Z /\ (h <= h')%Z.
Proof.
  induction 1 as [|a alerts [Ha|Ha] _ IH]; intros m h tc; simpl.
  - exists m, h, tc. split; [done|]. lia.
  - rewrite Ha. simpl.
    destruct (IH m (h + 1)%Z
                (Dict.set tc (Alert.alert_type a)
                   (default 0%Z (Dict.get tc (Alert.alert_type a)) + 1)%Z))
      as (m' & h' & tc' & -> & Hsum & Hm & Hh).
    exists m', h', tc'. split; [done|]. lia.
  - rewrite Ha. simpl.
    destruct (IH (m + 1)%Z h
                (Dict.set tc (Alert.alert_type a)
                   (default 0%Z (Dict.get tc (Alert.alert_type a)) + 1)%Z))
      as (m' & h' & tc' & -> & Hsum & Hm & Hh).
    exists m', h', tc'. split; [done|]. lia.
Qed.

(** C10: every alert that [generate_alerts] returns has severity high
    or medium; [generate_summary] applied to them raises nothing, counts
    as many alerts as it was given, keeps the four severity keys with
    low and critical at zero, and its high and medium counts add up to
    the number of alerts. *)
Theorem generate_alerts_summary (g : AlertGenerator.t)
    (clock : AlertGenerator.clock_t) (claims : list Claim.t)
    (previous : option (list Claim.t)) :
  let out := AlertGenerator.generate_alerts g clock claims previous in
  Forall (fun a => Alert.severity a = "high" \/ Alert.severity a = "medium") out
  /\ exists (s : AlertGenerator.summary) (m h : Z),
       AlertGenerator.generate_summary g out = inr s
       /\ AlertGenerator.total_alerts s = length out
       /\ AlertGenerator.severity_counts s
          = [("low", 0%Z); ("medium", m); ("high", h); ("critical", 0%Z)]
       /\ (0 <= m)%Z /\ (0 <= h)%Z /\ (m + h = Z.of_nat (length out))%Z
       /\ AlertGenerator.alerts s = map Alert.to_dict out.
Proof.
  intros out. pose proof (generate_alerts_severity g clock claims previous) as Hsev.
  fold out in Hsev. split; [exact Hsev|].
  destruct (summary_loop_high_medium out Hsev 0 0 []) as (m & h & tc & Hloop & Hsum & Hm & Hh).
  unfold AlertGenerator.generate_summary. rewrite Hloop. simpl.
  eexists _, m, h. split; [reflexivity|]. simpl. repeat split; try done; lia.
Qed.

End Summary.

#[local] Set Warnings "-inexact-float".
Example generate_alerts_high_confidence :
  let out := AlertGenerator.generate_alerts (AlertGenerator.mk 0.2 0.9) Z.of_nat
               [example_claim "c1" 0.95 ["e1"] []; example_claim "c2" 0.5 ["e1"] []]
               None in
  map Alert.alert_type out = ["high_confidence_claim"]
  /\ map Alert.severity out = ["high"]
  /\ match @AlertGenerator.generate_summary example_runtime AlertGenerator.init_default out with
     | inr s => AlertGenerator.severity_counts s
                = [("low", 0%Z); ("medium", 0%Z); ("high", 1%Z); ("critical", 0%Z)]
                /\ AlertGenerator.type_counts s = [("high_confidence_claim", 1%Z)]
     | inl _ => False
     end.
Proof. vm_compute. repeat split. Qed.
#[local] Set Warnings "inexact-float".

(** ** Artifact diff *)

Section ArtifactDiff.
Context `{PyRuntime}.

Lemma compute_dict_diff_not_dict (va vb : pyval) :
  is_dict va = false \/ is_dict vb = false ->
  exists msg, Diff._compute_dict_diff va vb = inl (AttributeError msg).
Proof.
  unfold Diff._compute_dict_diff.
  destruct va; simpl; try (intros _; by eexists).
  destruct vb; simpl; try (intros _; by eexists).
  by intros [|].
Qed.

(** Equal contents give no [content_diff], and contents that differ
    give the marker string as soon as one that is parsed is not JSON. *)
Lemma compute_artifact_diff_content (a b : Artifact.t) :
  (Artifact.content a = Artifact.content b ->
   exists d, Diff.compute_artifact_diff a b = inr d
             /\ Diff.content_match d = true /\ Diff.content_diff d = None)
  /\ (Artifact.content a <> Artifact.content b ->
      forall msg,
        json_loads (Artifact.content a) = inl (JSONDecodeError msg)
        \/ ((exists va, json_loads (Artifact.content a) = inr va)
            /\ json_loads (Artifact.content b) = inl (JSONDecodeError msg)) ->
      exists d, Diff.compute_artifact_diff a b = inr d
                /\ Diff.content_match d = false
                /\ Diff.content_diff d = Some (Diff.ContentStr "Raw content differs")).
Proof.
  unfold Diff.compute_artifact_diff. split.
  - intros Heq. rewrite (proj2 (String.eqb_eq _ _) Heq). simpl. by eexists.
  - intros Hne%String.eqb_neq msg. rewrite Hne. simpl.
    intros [Ha|[[va Ha] Hb]].
    + rewrite Ha. simpl. by eexists.
    + rewrite Ha, Hb. simpl. by eexists.
Qed.

(** C7 fails on the code: when the two contents differ and both are
    JSON, but one of them is not a JSON object, [compute_artifact_diff]
    raises [AttributeError] in place of returning the marker. *)
Theorem compute_artifact_diff_not_dict (a b : Artifact.t) (va vb : pyval) :
  Artifact.content a <> Artifact.content b ->
  json_loads (Artifact.content a) = inr va ->
  json_loads (Artifact.content b) = inr vb ->
  is_dict va = false \/ is_dict vb = false ->
  exists msg, Diff.compute_artifact_diff a b = inl (AttributeError msg).
Proof.
  intros Hne%String.eqb_neq Ha Hb Hnd.
  unfold Diff.compute_artifact_diff. rewrite Hne, Ha, Hb. simpl.
  destruct (compute_dict_diff_not_dict va vb Hnd) as [msg ->]. simpl.
  by exists msg.
Qed.

End ArtifactDiff.

Lemma compute_artifact_diff_not_dict_witness :
  @Diff.compute_artifact_diff example_runtime
    (example_artifact "a1" "[1]" None) (example_artifact "a2" "[2]" None)
  = inl (AttributeError "'list' object has no attribute 'keys'").
Proof.
  destruct (@compute_artifact_diff_not_dict example_runtime
              (example_artifact "a1" "[1]" None) (example_artifact "a2" "[2]" None)
              (PList [PInt 1]) (PList [PInt 2])) as [msg Hmsg].
  - discriminate.
  - reflexivity.
  - reflexivity.
  - by left.
  - reflexivity.
Defined.

(** * Further properties of the stores *)

(** ** Dictionaries, continued *)

Lemma dict_len_set {V : Type} (d : Dict.t V) (k : string) (v : V) :
  Dict.len (Dict.set d k v)
  = if Dict.contains d k then Dict.len d else S (Dict.len d).
Proof.
  unfold Dict.len, Dict.contains. induction d as [|[j w] d IH]; simpl; [done|].
  destruct (decide (j = k)); simpl; [done|]. rewrite IH.
  by destruct (Dict.get d k).
Qed.

Lemma dict_keys_set_new {V : Type} (d : Dict.t V) (k : string) (v : V) :
  Dict.contains d k = false -> Dict.keys (Dict.set d k v) = (Dict.keys d ++ [k])%list.
Proof.
  unfold Dict.keys, Dict.contains. induction d as [|[j w] d IH]; simpl; [done|].
  destruct (decide (j = k)); [done|]. simpl. intros Hk. by rewrite IH.
Qed.

Lemma dict_contains_keys {V : Type} (d : Dict.t V) (k : string) :
  Dict.contains d k = true <-> k ∈ Dict.keys d.
Proof.
  unfold Dict.contains. pose proof (dict_get_None d k) as Hn.
  destruct (Dict.get d k); split; try done.
  - intros _. destruct (decide (k ∈ Dict.keys d)) as [|Hk]; [done|].
    by apply Hn in Hk.
  - intros Hk. by apply Hn in Hk.
Qed.

Lemma dict_keys_NoDup_set {V : Type} (d : Dict.t V) (k : string) (v : V) :
  NoDup (Dict.keys d) -> NoDup (Dict.keys (Dict.set d k v)).
Proof.
  intros Hnd. destruct (Dict.contains d k) eqn:Hc.
  - rewrite dict_keys_set; [done|]. by apply dict_contains_keys.
  - rewrite dict_keys_set_new by done. apply NoDup_app. split; [done|].
    split; [|apply NoDup_singleton].
    intros x Hx ->%list_elem_of_singleton.
    apply dict_contains_keys in Hx. congruence.
Qed.

Lemma dict_get_values {V : Type} (d : Dict.t V) (k : string) (v : V) :
  Dict.get d k = Some v -> v ∈ Dict.values d.
Proof.
  unfold Dict.values. induction d as [|[j w] d IH]; simpl; [done|].
  destruct (decide (j = k)).
  - intros [= ->]. by left.
  - intros Hv. right. by apply IH.
Qed.

Lemma dict_values_get {V : Type} (d : Dict.t V) (v : V) :
  NoDup (Dict.keys d) -> v ∈ Dict.values d -> exists k, Dict.get d k = Some v.
Proof.
  unfold Dict.values, Dict.keys. induction d as [|[j w] d IH]; simpl.
  - by intros _ ?%elem_of_nil.
  - intros [Hj Hnd]%NoDup_cons [->|Hv]%elem_of_cons.
    + exists j. by rewrite decide_True.
    + destruct (IH Hnd Hv) as [k Hk]. exists k.
      destruct (decide (j = k)) as [->|]; [|done].
      apply dict_get_None in Hj. unfold Dict.keys in Hj. congruence.
Qed.

Lemma dict_values_set {V : Type} (d : Dict.t V) (k : string) (v x : V) :
  x ∈ Dict.values (Dict.set d k v) -> x = v \/ x ∈ Dict.values d.
Proof.
  unfold Dict.values. induction d as [|[j w] d IH]; simpl.
  - intros ->%list_elem_of_singleton. by left.
  - destruct (decide (j = k)); simpl.
    + intros [->|Hx]%elem_of_cons; [by left|]. right. by right.
    + intros [->|Hx]%elem_of_cons; [right; by left|].
      destruct (IH Hx) as [->|Hx']; [by left|]. right. by right.
Qed.

(** ** Storing and reading back *)

(** X1: [store_evidence] returns the record it stores: reading the drawn
    identifier back gives that record, which carries the identifier, the
    content and source it was given, and the clock reading; every other
    identifier reads as before; and the count grows by one unless the
    identifier was already a key, in which case the earlier record is
    replaced and the count stays. *)
Theorem store_evidence_read_back (s : EvidenceStore.t) (now : Z) (uuid : string)
    (content source : string) (metadata : option (list (string * pyval)))
    (tool_name tool_version model_name model_version : option string) :
  let r := EvidenceStore.store_evidence s now uuid content source metadata
             tool_name tool_version model_name model_version in
  EvidenceStore.get_evidence r.2 uuid = Some r.1
  /\ r.1 = Evidence.mk (Some uuid) content source (default [] metadata) tool_name
                       tool_version model_name model_version now
  /\ (forall i, i <> uuid ->
        EvidenceStore.get_evidence r.2 i = EvidenceStore.get_evidence s i)
  /\ EvidenceStore.count_evidence r.2
     = match EvidenceStore.get_evidence s uuid with
       | Some _ => EvidenceStore.count_evidence s
       | None => S (EvidenceStore.count_evidence s)
       end.
Proof.
  unfold EvidenceStore.store_evidence, EvidenceStore.get_evidence,
    EvidenceStore.count_evidence. simpl. repeat split.
  - rewrite dict_get_set. by rewrite decide_True.
  - intros i Hi. rewrite dict_get_set. by rewrite decide_False.
  - rewrite dict_len_set. unfold Dict.contains.
    by destruct (Dict.get (EvidenceStore._evidence s) uuid).
Qed.

(** X2: [store_artifact] returns the artifact it stores, with the parent
    reference as given, whether or not that parent exists; other
    identifiers read as before and the count grows by one for a new
    key. *)
Theorem store_artifact_read_back (s : ArtifactStore.t) (now : Z) (uuid : string)
    (artifact_type : Artifact.artifact_type_t) (content : string)
    (parent : option string) (metadata : option (list (string * pyval)))
    (tool_name tool_version model_name model_version : option string) :
  let r := ArtifactStore.store_artifact s now uuid artifact_type content parent
             metadata tool_name tool_version model_name model_version in
  ArtifactStore.get_artifact r.2 uuid = Some r.1
  /\ r.1 = Artifact.mk (Some uuid) artifact_type content parent (default [] metadata)
                       tool_name tool_version model_name model_version now
  /\ (forall i, i <> uuid ->
        ArtifactStore.get_artifact r.2 i = ArtifactStore.get_artifact s i)
  /\ ArtifactStore.count_artifacts r.2
     = match ArtifactStore.get_artifact s uuid with
       | Some _ => ArtifactStore.count_artifacts s
       | None => S (ArtifactStore.count_artifacts s)
       end.
Proof.
  unfold ArtifactStore.store_artifact, ArtifactStore.get_artifact,
    ArtifactStore.count_artifacts. simpl. repeat split.
  - rewrite dict_get_set. by rewrite decide_True.
  - intros i Hi. rewrite dict_get_set. by rewrite decide_False.
  - rewrite dict_len_set. unfold Dict.contains.
    by destruct (Dict.get (ArtifactStore._artifacts s) uuid).
Qed.

(** X3: [verify_evidence] and [verify_artifact] answer whether the
    identifier is stored, and nothing more: both hashes they compare are
    computed from the same content, so a stored record always verifies. *)
Theorem verify_is_presence `{PyRuntime} (es : EvidenceStore.t) (ars : ArtifactStore.t)
    (i : string) :
  (EvidenceStore.verify_evidence es i = true
   <-> is_Some (EvidenceStore.get_evidence es i))
  /\ (ArtifactStore.verify_artifact ars i = true
      <-> is_Some (ArtifactStore.get_artifact ars i)).
Proof.
  unfold EvidenceStore.verify_evidence, ArtifactStore.verify_artifact. split.
  - destruct (EvidenceStore.get_evidence es i) as [e|].
    + rewrite String.eqb_refl. split; [by eexists|done].
    + split; [done|]. by intros [? ?].
  - destruct (ArtifactStore.get_artifact ars i) as [a|].
    + rewrite String.eqb_refl. split; [by eexists|done].
    + split; [done|]. by intros [? ?].
Qed.

(** ** Sorting and listing *)

Lemma insert_desc_perm {A : Type} (lt : A -> A -> bool) (x : A) (l : list A) :
  insert_desc lt x l ≡ₚ x :: l.
Proof.
  induction l as [|y l IH]; simpl; [done|].
  destruct (lt x y); [|done]. rewrite IH. apply perm_swap.
Qed.

Lemma sort_desc_perm {A : Type} (lt : A -> A -> bool) (l : list A) :
  sort_desc lt l ≡ₚ l.
Proof.
  induction l as [|x l IH]; simpl; [done|].
  by rewrite insert_desc_perm, IH.
Qed.

Lemma insert_desc_Sorted {A : Type} (lt : A -> A -> bool) (x : A) (l : list A) :
  (forall a b, lt a b = true -> lt b a = false) ->
  Sorted (not_below lt) l -> Sorted (not_below lt) (insert_desc lt x l).
Proof.
  intros Hasym. induction 1 as [|y l Hs IH Hhd]; simpl.
  - by repeat constructor.
  - destruct (lt x y) eqn:Hxy.
    + constructor; [done|].
      destruct Hhd as [|z l Hyz]; simpl.
      * constructor. by apply Hasym.
      * destruct (lt x z); constructor; [done|by apply Hasym].
    + constructor; [by constructor|]. by constructor.
Qed.

Lemma sort_desc_Sorted {A : Type} (lt : A -> A -> bool) (l : list A) :
  (forall a b, lt a b = true -> lt b a = false) ->
  Sorted (not_below lt) (sort_desc lt l).
Proof.
  intros Hasym. induction l as [|x l IH]; simpl; [constructor|].
  by apply insert_desc_Sorted.
Qed.

Lemma slice_to_prefix {A : Type} (n : Z) (l : list A) : slice_to n l `prefix_of` l.
Proof. unfold slice_to. destruct (0 <=? n)%Z; apply prefix_take. Qed.

Lemma slice_to_length {A : Type} (n : Z) (l : list A) :
  length (slice_to n l)
  = if (0 <=? n)%Z then Nat.min (Z.to_nat n) (length l)
    else length l - Z.to_nat (- n).
Proof.
  unfold slice_to. destruct (0 <=? n)%Z; rewrite length_take; lia.
Qed.

Lemma filter_since_elem {A : Type} (timestamp : A -> Z) (since : option Z)
    (l : list A) (x : A) :
  x ∈ filter_since timestamp since l
  <-> x ∈ l /\ forall t, since = Some t -> (t <= timestamp x)%Z.
Proof.
  unfold filter_since. destruct since as [t|].
  - rewrite list_elem_of_In, filter_In, <- list_elem_of_In, Z.leb_le.
    split; [intros [? ?]; split; [done|by intros ? [= <-]]|].
    intros [? Ht]. split; [done|]. by apply Ht.
  - split; [intros ?; by split|by intros [? _]].
Qed.

Lemma Sorted_weaken {A : Type} (R R' : A -> A -> Prop) (l : list A) :
  (forall a b, R a b -> R' a b) -> Sorted R l -> Sorted R' l.
Proof.
  intros HR. induction 1 as [|x l Hs IH Hhd]; constructor; [done|].
  destruct Hhd; constructor. by apply HR.
Qed.

Lemma timestamp_sorted {A : Type} (timestamp : A -> Z) (l : list A) :
  StronglySorted (fun a b => (timestamp b <= timestamp a)%Z)
    (sort_desc (fun a b => (timestamp a <? timestamp b)%Z) l).
Proof.
  apply Sorted_StronglySorted.
  - intros a b c ? ?. lia.
  - eapply Sorted_weaken;
      [|apply (sort_desc_Sorted (fun a b => (timestamp a <? timestamp b)%Z))].
    + intros a b Hab. unfold not_below in Hab. by apply Z.ltb_ge in Hab.
    + intros a b Hab. apply Z.ltb_lt in Hab. apply Z.ltb_ge. lia.
Qed.

Lemma float_eqb_sym (x y : float) : (x =? y)%float = (y =? x)%float.
Proof.
  rewrite !FloatAxioms.eqb_spec. unfold SFeqb.
  rewrite (SFcompare_antisym (Prim2SF x) (Prim2SF y)).
  by destruct (SFcompare (Prim2SF x) (Prim2SF y)) as [[]|].
Qed.

Lemma float_ltb_asym (x y : float) :
  (x <? y)%float = true -> (y <? x)%float = false.
Proof.
  rewrite !ltb_spec. unfold SFltb.
  rewrite (SFcompare_antisym (Prim2SF x) (Prim2SF y)).
  by destruct (SFcompare (Prim2SF x) (Prim2SF y)) as [[]|].
Qed.

Lemma sort_key_lt_asym (a b : Claim.t) :
  ClaimStore.sort_key_lt a b = true -> ClaimStore.sort_key_lt b a = false.
Proof.
  unfold ClaimStore.sort_key_lt.
  rewrite (float_eqb_sym (Claim.confidence b) (Claim.confidence a)).
  destruct (Claim.confidence a =? Claim.confidence b)%float.
  - intros Hlt%Z.ltb_lt. apply Z.ltb_ge. lia.
  - apply float_ltb_asym.
Qed.

(** X4: without a limit [list_evidence] returns exactly the stored
    records that pass every filter given (a source that is absent or
    empty filters nothing), newest first; a limit returns a prefix of
    that list, of length the limit when it is positive and the list is
    long enough, and a negative limit drops that many records from the
    end. *)
Theorem list_evidence_filtered_sorted (s : EvidenceStore.t) (source : option string)
    (since : option Z) :
  let all := EvidenceStore.list_evidence s source since None in
  (forall e, e ∈ all <->
             e ∈ Dict.values (EvidenceStore._evidence s)
             /\ (truthy source = true -> Some (Evidence.source e) = source)
             /\ (forall t, since = Some t -> (t <= Evidence.timestamp e)%Z))
  /\ StronglySorted (fun a b => (Evidence.timestamp b <= Evidence.timestamp a)%Z) all
  /\ (forall limit, EvidenceStore.list_evidence s source since limit `prefix_of` all)
  /\ (forall n, (0 < n)%Z ->
        length (EvidenceStore.list_evidence s source since (Some n))
        = Nat.min (Z.to_nat n) (length all))
  /\ (forall n, (n < 0)%Z ->
        length (EvidenceStore.list_evidence s source since (Some n))
        = length all - Z.to_nat (- n)).
Proof.
  unfold EvidenceStore.list_evidence. simpl.
  split; [|split; [|split; [|split]]].
  - intros e. rewrite sort_desc_perm, filter_since_elem.
    destruct (truthy source).
    + rewrite list_elem_of_In, filter_In, <- list_elem_of_In, bool_decide_eq_true.
      split; [intros [[? ?] ?]; by repeat split|].
      intros (? & Hs & ?). repeat split; [done| |done]. by apply Hs.
    + split; [intros [? ?]; by repeat split|]. by intros (? & _ & ?).
  - apply timestamp_sorted.
  - intros [n|]; simpl; [|done]. destruct (n =? 0)%Z; [done|apply slice_to_prefix].
  - intros n Hn. rewrite (proj2 (Z.eqb_neq n 0)) by lia.
    rewrite slice_to_length. by rewrite (proj2 (Z.leb_le 0 n)) by lia.
  - intros n Hn. rewrite (proj2 (Z.eqb_neq n 0)) by lia.
    rewrite slice_to_length. by rewrite (proj2 (Z.leb_gt 0 n)) by lia.
Qed.

(** X5: without a limit [list_claims] returns exactly the stored claims
    that pass the confidence and time filters, each claim followed by
    one whose key (confidence, then timestamp) is not greater; a limit
    returns a prefix of that list. *)
Theorem list_claims_filtered_sorted (s : ClaimStore.t) (min_confidence : option float)
    (since : option Z) :
  let all := ClaimStore.list_claims s min_confidence since None in
  (forall c, c ∈ all <->
             c ∈ Dict.values (ClaimStore._claims s)
             /\ (forall m, min_confidence = Some m -> (m <=? Claim.confidence c)%float = true)
             /\ (forall t, since = Some t -> (t <= Claim.timestamp c)%Z))
  /\ Sorted (fun a b => ClaimStore.sort_key_lt a b = false) all
  /\ (forall a b, ClaimStore.sort_key_lt a b = false ->
        (Claim.confidence a <? Claim.confidence b)%float = false
        /\ ((Claim.confidence a =? Claim.confidence b)%float = true ->
            (Claim.timestamp b <= Claim.timestamp a)%Z))
  /\ (forall limit, ClaimStore.list_claims s min_confidence since limit `prefix_of` all).
Proof.
  unfold ClaimStore.list_claims. simpl.
  split; [|split; [|split]].
  - intros c. rewrite sort_desc_perm, filter_since_elem.
    destruct min_confidence as [m|].
    + rewrite list_elem_of_In, filter_In, <- list_elem_of_In.
      split; [intros [[? ?] ?]; repeat split; [done| |done]; by intros ? [= <-]|].
      intros (? & Hm & ?). repeat split; [done| |done]. by apply Hm.
    + split; [intros [? ?]; by repeat split|]. by intros (? & _ & ?).
  - apply (sort_desc_Sorted ClaimStore.sort_key_lt), sort_key_lt_asym.
  - intros a b. unfold ClaimStore.sort_key_lt.
    destruct (Claim.confidence a =? Claim.confidence b)%float eqn:Heq.
    + intros Hlt%Z.ltb_ge. split; [|done].
      rewrite ltb_spec. rewrite FloatAxioms.eqb_spec in Heq. unfold SFltb, SFeqb in *.
      by destruct (SFcompare _ _) as [[]|].
    + intros Hlt. by split.
  - intros [n|]; simpl; [|done]. destruct (n =? 0)%Z; [done|apply slice_to_prefix].
Qed.

(** X6: without a limit [list_artifacts] returns exactly the stored
    artifacts of the type asked for, with the parent asked for (an empty
    parent identifier is a filter like any other), created at or after
    the time asked for, newest first; a limit returns a prefix. *)
Theorem list_artifacts_filtered_sorted (s : ArtifactStore.t)
    (artifact_type : option Artifact.artifact_type_t)
    (parent_artifact_id : option string) (since : option Z) :
  let all := ArtifactStore.list_artifacts s artifact_type parent_artifact_id since None in
  (forall a, a ∈ all <->
             a ∈ Dict.values (ArtifactStore._artifacts s)
             /\ (forall k, artifact_type = Some k -> Artifact.artifact_type a = k)
             /\ (forall p, parent_artifact_id = Some p ->
                   Artifact.parent_artifact_id a = Some p)
             /\ (forall t, since = Some t -> (t <= Artifact.timestamp a)%Z))
  /\ StronglySorted (fun a b => (Artifact.timestamp b <= Artifact.timestamp a)%Z) all
  /\ (forall limit,
        ArtifactStore.list_artifacts s artifact_type parent_artifact_id since limit
          `prefix_of` all).
Proof.
  unfold ArtifactStore.list_artifacts. simpl.
  split; [|split].
  - intros a. rewrite sort_desc_perm, filter_since_elem.
    assert (Hp : forall l,
               a ∈ match parent_artifact_id with
                    | Some p =>
                        List.filter
                          (fun a => bool_decide (Artifact.parent_artifact_id a = Some p)) l
                    | None => l
                    end
               <-> a ∈ l /\ (forall p, parent_artifact_id = Some p ->
                                Artifact.parent_artifact_id a = Some p)).
    { intros l. destruct parent_artifact_id as [p|].
      - rewrite list_elem_of_In, filter_In, <- list_elem_of_In, bool_decide_eq_true.
        split; [intros [? ?]; split; [done|by intros ? [= <-]]|].
        intros [? Hq]. split; [done|]. by apply Hq.
      - split; [intros ?; by split|by intros [? _]]. }
    rewrite Hp. destruct artifact_type as [k|].
    + rewrite list_elem_of_In, filter_In, <- list_elem_of_In, bool_decide_eq_true.
      split.
      * intros [[[? ?] ?] ?]. repeat split; try done. by intros ? [= <-].
      * intros (? & Hk & ? & ?). repeat split; try done. by apply Hk.
    + split; [intros [[? ?] ?]; by repeat split|]. by intros (? & _ & ? & ?).
  - apply timestamp_sorted.
  - intros [n|]; simpl; [|done]. destruct (n =? 0)%Z; [done|apply slice_to_prefix].
Qed.








(** ** The claim store and its evidence *)

Lemma validate_evidence_present (es : EvidenceStore.t) (ids : list string) :
  (forall i, i ∈ ids -> is_Some (EvidenceStore.get_evidence es i)) ->
  ClaimStore.validate_evidence es ids = inr tt.
Proof.
  induction ids as [|j ids IH]; simpl; intros Hall; [done|].
  destruct (Hall j) as [e ->]; [by left|].
  apply IH. intros i Hi. apply Hall. by right.
Qed.

Lemma claim_init_inr statement confidence supporting counter metadata
    tool_name tool_version model_name model_version timestamp (c : Claim.t) :
  Claim.init statement confidence supporting counter metadata tool_name
             tool_version model_name model_version timestamp = inr c ->
  c = Claim.mk None statement confidence supporting counter metadata tool_name
               tool_version model_name model_version timestamp
  /\ (supporting ++ counter)%list <> []
  /\ (0 <=? confidence)%float = true /\ (confidence <=? 1)%float = true.
Proof.
  unfold Claim.init, Claim.model_post_init.
  destruct (confidence <=? 1)%float; simpl; [|done].
  destruct (0 <=? confidence)%float; simpl; [|done].
  destruct supporting, counter; simpl; try done; by intros [= <-].
Qed.

(** X7: when every referenced identifier is in the evidence store, some
    reference is given and the confidence is within [0, 1], [store_claim]
    returns the claim with the drawn identifier and the clock reading,
    reading that identifier back gives the claim, other identifiers read
    as before, and the claim is returned by [get_claims_by_evidence] for
    each of its references. *)
Theorem store_claim_success (es : EvidenceStore.t) (s : ClaimStore.t)
    (now : Z) (uuid : string) (statement : string) (confidence : float)
    (supporting : list string) (counter : option (list string))
    (metadata : option (list (string * pyval)))
    (tool_name tool_version model_name model_version : option string) :
  (forall i, i ∈ (supporting ++ default [] counter)%list ->
             is_Some (EvidenceStore.get_evidence es i)) ->
  (supporting ++ default [] counter)%list <> [] ->
  (0 <=? confidence)%float = true -> (confidence <=? 1)%float = true ->
  let r := ClaimStore.store_claim es s now uuid statement confidence supporting
             counter metadata tool_name tool_version model_name model_version in
  let c := Claim.mk (Some uuid) statement confidence supporting (default [] counter)
                    (default [] metadata) tool_name tool_version model_name
                    model_version now in
  r.1 = inr c
  /\ ClaimStore.get_claim r.2 uuid = Some c
  /\ (forall i, i <> uuid -> ClaimStore.get_claim r.2 i = ClaimStore.get_claim s i)
  /\ ClaimStore.count_claims r.2
     = match ClaimStore.get_claim s uuid with
       | Some _ => ClaimStore.count_claims s
       | None => S (ClaimStore.count_claims s)
       end
  /\ (forall i, i ∈ (supporting ++ default [] counter)%list ->
        c ∈ ClaimStore.get_claims_by_evidence r.2 i).
Proof.
  intros Hall Hne Hlo Hhi r c. subst r c.
  unfold ClaimStore.store_claim. rewrite validate_evidence_present by done.
  unfold Claim.init, Claim.model_post_init. rewrite Hhi, Hlo. simpl.
  destruct (length supporting + length (default [] counter) =? 0)%nat eqn:Hlen.
  { apply Nat.eqb_eq in Hlen. destruct supporting, (default [] counter); done. }
  simpl. unfold ClaimStore.get_claim, ClaimStore.count_claims,
    ClaimStore.get_claims_by_evidence. simpl.
  split; [done|]. split; [by rewrite dict_get_set, decide_True|].
  split; [intros i Hi; by rewrite dict_get_set, decide_False|].
  split.
  - rewrite dict_len_set. unfold Dict.contains.
    by destruct (Dict.get (ClaimStore._claims s) uuid).
  - intros i Hi. rewrite list_elem_of_In, filter_In, <- list_elem_of_In.
    split; [|by apply bool_decide_eq_true].
    eapply dict_get_values. by rewrite dict_get_set, decide_True.
Qed.

Lemma store_claim_success_witness :
  let es := (EvidenceStore.store_evidence EvidenceStore.init 1 "e1" "bank statement"
               "manual" None None None None None).2 in
  let r := ClaimStore.store_claim es ClaimStore.init 2 "c1" "claim" 0.5 ["e1"] None
             None None None None None in
  r.1 = inr (Claim.mk (Some "c1") "claim" 0.5 ["e1"] [] [] None None None None 2)
  /\ ClaimStore.count_claims r.2 = 1.
Proof.
  intros es r.
  destruct (store_claim_success es ClaimStore.init 2 "c1" "claim" 0.5 ["e1"] None
              None None None None None) as (H1 & _ & _ & H4 & _).
  - intros i ->%list_elem_of_singleton. by eexists.
  - discriminate.
  - reflexivity.
  - reflexivity.
  - split; [exact H1|exact H4].
Defined.

(** X8: the invariant above holds of the empty claim store and is kept
    by [store_claim], whether it succeeds or raises, and by
    [store_evidence] on the evidence store the claim store reads. *)
Theorem claims_ok_invariant (es : EvidenceStore.t) (cs : ClaimStore.t) :
  claims_ok es ClaimStore.init
  /\ (claims_ok es cs ->
      (forall now uuid statement confidence supporting counter metadata
              tool_name tool_version model_name model_version,
          claims_ok es
            (ClaimStore.store_claim es cs now uuid statement confidence supporting
               counter metadata tool_name tool_version model_name model_version).2)
      /\ (forall now uuid content source metadata
                 tool_name tool_version model_name model_version,
             claims_ok
               (EvidenceStore.store_evidence es now uuid content source metadata
                  tool_name tool_version model_name model_version).2 cs)).
Proof.
  split; [by intros c ?%elem_of_nil|]. intros Hok. split.
  - intros now uuid statement confidence supporting counter metadata
      tool_name tool_version model_name model_version.
    unfold ClaimStore.store_claim.
    destruct (ClaimStore.validate_evidence es _) as [e|u] eqn:Hv; [done|].
    destruct (Claim.init _ _ _ _ _ _ _ _ _ _) as [e|c0] eqn:Hinit; [done|].
    apply claim_init_inr in Hinit as (-> & Hne & Hlo & Hhi). simpl.
    intros c [->|Hc]%dict_values_set; [|by apply Hok].
    unfold Claim.evidence_refs. simpl. repeat split; try done.
    intros i Hi. by eapply validate_evidence_inr.
  - intros now uuid content source metadata tool_name tool_version
      model_name model_version c Hc.
    destruct (Hok c Hc) as (? & ? & ? & ? & Hrefs). repeat split; try done.
    intros i Hi. unfold EvidenceStore.store_evidence, EvidenceStore.get_evidence.
    simpl. rewrite dict_get_set. destruct (decide (uuid = i)); [done|].
    by apply Hrefs.
Qed.

(** X9: [get_claims_by_evidence] returns exactly the stored claims that
    list the identifier among their supporting or counter references;
    under the invariant it returns nothing for an identifier the
    evidence store does not hold. *)
Theorem get_claims_by_evidence_spec (es : EvidenceStore.t) (cs : ClaimStore.t)
    (evidence_id : string) :
  (forall c, c ∈ ClaimStore.get_claims_by_evidence cs evidence_id <->
             c ∈ Dict.values (ClaimStore._claims cs)
             /\ (evidence_id ∈ Claim.supporting_evidence_ids c
                 \/ evidence_id ∈ Claim.counter_evidence_ids c))
  /\ (claims_ok es cs -> EvidenceStore.get_evidence es evidence_id = None ->
      ClaimStore.get_claims_by_evidence cs evidence_id = []).
Proof.
  assert (Hspec : forall c,
             c ∈ ClaimStore.get_claims_by_evidence cs evidence_id <->
             c ∈ Dict.values (ClaimStore._claims cs)
             /\ (evidence_id ∈ Claim.supporting_evidence_ids c
                 \/ evidence_id ∈ Claim.counter_evidence_ids c)).
  { intros c. unfold ClaimStore.get_claims_by_evidence, Claim.evidence_refs.
    by rewrite list_elem_of_In, filter_In, <- list_elem_of_In, bool_decide_eq_true,
      elem_of_app. }
  split; [exact Hspec|]. intros Hok Hnone.
  apply elem_of_nil_inv. intros c Hc.
  apply Hspec in Hc as [Hc Hin]. destruct (Hok c Hc) as (_ & _ & _ & _ & Hrefs).
  destruct (Hrefs evidence_id) as [e He]; [|congruence].
  unfold Claim.evidence_refs. by apply elem_of_app.
Qed.

(** ** Lineage, continued *)

Lemma lineage_loop_acc (s : ArtifactStore.t) (fuel : nat) :
  forall current acc acc' r,
    ArtifactStore.lineage_loop fuel s current acc = Some r ->
    ArtifactStore.lineage_loop fuel s current (acc ++ acc') = Some (r ++ acc')%list.
Proof.
  induction fuel as [|fuel IH]; simpl; intros current acc acc' r; [done|].
  destruct (truthy current); [|by intros [= <-]].
  destruct (ArtifactStore.get_artifact s _) as [a|]; [|by intros [= <-]].
  intros Hr. by apply (IH _ (a :: acc)).
Qed.

Lemma lineage_loop_store_artifact (s : ArtifactStore.t) (now : Z) (uuid : string)
    (artifact_type : Artifact.artifact_type_t) (content : string)
    (parent : option string) (metadata : option (list (string * pyval)))
    (tool_name tool_version model_name model_version : option string) (fuel : nat) :
  (forall j b, ArtifactStore.get_artifact s j = Some b ->
               Artifact.parent_artifact_id b <> Some uuid) ->
  forall current acc r,
    current <> Some uuid ->
    ArtifactStore.lineage_loop fuel s current acc = Some r ->
    ArtifactStore.lineage_loop fuel
      (ArtifactStore.store_artifact s now uuid artifact_type content parent metadata
         tool_name tool_version model_name model_version).2 current acc
    = Some r.
Proof.
  intros Hnamed. induction fuel as [|fuel IH]; simpl; intros current acc r Hcur; [done|].
  destruct (truthy current) eqn:Ht; [|done].
  destruct current as [i|]; [|done]. simpl.
  unfold ArtifactStore.get_artifact at 2. simpl. rewrite dict_get_set.
  rewrite decide_False by congruence.
  fold (ArtifactStore.get_artifact s i).
  destruct (ArtifactStore.get_artifact s i) as [a|] eqn:Ha; [|done].
  apply IH. by eapply Hnamed.
Qed.

(** X10: [get_artifact_lineage] returns the empty list for an identifier
    that is empty or not stored, and the single stored artifact when its
    parent reference is absent, empty or dangling: a missing parent ends
    the walk and raises nothing. *)
Theorem get_artifact_lineage_ends (s : ArtifactStore.t) (artifact_id : string) :
  (artifact_id = "" \/ ArtifactStore.get_artifact s artifact_id = None ->
   forall fuel, 0 < fuel ->
     ArtifactStore.get_artifact_lineage fuel s artifact_id = Some [])
  /\ (forall a, artifact_id <> "" ->
        ArtifactStore.get_artifact s artifact_id = Some a ->
        truthy (Artifact.parent_artifact_id a) = false
        \/ (exists p, Artifact.parent_artifact_id a = Some p
                      /\ ArtifactStore.get_artifact s p = None) ->
        forall fuel, 1 < fuel ->
          ArtifactStore.get_artifact_lineage fuel s artifact_id = Some [a]).
Proof.
  unfold ArtifactStore.get_artifact_lineage. split.
  - intros Hi [|fuel] Hf; [lia|]. simpl.
    destruct (String.eqb artifact_id "") eqn:He; simpl; [done|].
    destruct Hi as [-> | ->]; [by rewrite String.eqb_refl in He|done].
  - intros a Hne%String.eqb_neq Ha Hp [|[|fuel]] Hf; try lia. simpl.
    rewrite Hne. simpl. rewrite Ha.
    destruct Hp as [-> | (p & -> & Hp)]; [done|].
    destruct (truthy (Some p)); [|done]. simpl. by rewrite Hp.
Qed.

(** X11: when the drawn identifier is new (not empty, not a key, not
    named as parent by a stored artifact) and the lineage of [p] is [l],
    then after [store_artifact] with parent [p] the lineage of the new
    artifact is [l] followed by the new artifact. *)
Theorem get_artifact_lineage_store_artifact (s : ArtifactStore.t) (now : Z)
    (uuid : string) (artifact_type : Artifact.artifact_type_t) (content : string)
    (p : string) (metadata : option (list (string * pyval)))
    (tool_name tool_version model_name model_version : option string)
    (fuel : nat) (l : list Artifact.t) :
  uuid <> "" -> p <> uuid ->
  (forall j b, ArtifactStore.get_artifact s j = Some b ->
               Artifact.parent_artifact_id b <> Some uuid) ->
  ArtifactStore.get_artifact_lineage fuel s p = Some l ->
  let r := ArtifactStore.store_artifact s now uuid artifact_type content (Some p)
             metadata tool_name tool_version model_name model_version in
  ArtifactStore.get_artifact_lineage (S fuel) r.2 uuid = Some (l ++ [r.1])%list
  /\ ArtifactStore.get_artifact_lineage fuel r.2 p = Some l.
Proof.
  intros Hne%String.eqb_neq Hp Hnamed Hl r.
  unfold ArtifactStore.get_artifact_lineage in *.
  assert (Hkeep : ArtifactStore.lineage_loop fuel r.2 (Some p) [] = Some l).
  { apply lineage_loop_store_artifact; [done|congruence|done]. }
  split; [|done]. simpl. rewrite Hne. simpl.
  unfold ArtifactStore.get_artifact at 1. simpl. rewrite dict_get_set.
  rewrite decide_True by done. simpl.
  by apply (lineage_loop_acc r.2 fuel (Some p) [] [r.1]).
Qed.

Lemma get_artifact_lineage_store_artifact_witness :
  let s1 := (ArtifactStore.store_artifact ArtifactStore.init 1 "u1" Artifact.T_report
               "v1" None None None None None None).2 in
  exists l,
    ArtifactStore.get_artifact_lineage 3 two_version_store "u2" = Some l
    /\ map Artifact.content l = ["v1"; "v2"]
    /\ ArtifactStore.get_artifact_lineage 2 two_version_store "u1"
       = ArtifactStore.get_artifact_lineage 2 s1 "u1".
Proof.
  intros s1.
  destruct (get_artifact_lineage_store_artifact s1 2 "u2" Artifact.T_report "v2" "u1"
              None None None None None 2
              [Artifact.mk (Some "u1") Artifact.T_report "v1" None [] None None None None 1])
    as [H1 H2].
  - discriminate.
  - discriminate.
  - intros j b. unfold ArtifactStore.get_artifact. simpl.
    destruct (decide ("u1" = j)); [|discriminate]. intros [= <-]. discriminate.
  - reflexivity.
  - eexists. split; [exact H1|]. split; [reflexivity|]. exact H2.
Defined.

(** ** Fingerprints, continued *)

Section MoreFingerprints.
Context `{PyRuntime}.

Lemma json_dumps_strings (l : list string) :
  map json_dumps (map PStr l) = map json_str l.
Proof. by rewrite map_map. Qed.

(** X12: the run fingerprint of a claim is the digest of the JSON object
    whose members are, in this order, confidence, counter_evidence (the
    sorted identifiers), model, statement_hash (the digest of the
    statement), supporting_evidence (sorted), timestamp and tool; the
    identifier and the metadata of the claim do not enter. *)
Theorem run_fingerprint_canonical (c : Claim.t) :
  Claim.run_fingerprint c
  = sha256_hex
      ("{" ++ String.concat ", "
         [json_str "confidence" ++ ": " ++ json_float (Claim.confidence c);
          json_str "counter_evidence" ++ ": "
            ++ ("[" ++ String.concat ", "
                         (map json_str (sorted (Claim.counter_evidence_ids c))) ++ "]");
          json_str "model" ++ ": "
            ++ json_dumps (provenance (Claim.model_name c) (Claim.model_version c));
          json_str "statement_hash" ++ ": "
            ++ json_str (sha256_hex (Claim.statement c));
          json_str "supporting_evidence" ++ ": "
            ++ ("[" ++ String.concat ", "
                         (map json_str (sorted (Claim.supporting_evidence_ids c))) ++ "]");
          json_str "timestamp" ++ ": " ++ json_str (isoformat (Claim.timestamp c));
          json_str "tool" ++ ": "
            ++ json_dumps (provenance (Claim.tool_name c) (Claim.tool_version c))]
       ++ "}").
Proof.
  unfold Claim.run_fingerprint, Claim.fingerprint_data.
  rewrite <- !json_dumps_strings. reflexivity.
Qed.

(** X13: the fingerprint of an artifact is the digest of the JSON object
    whose members are, in this order, artifact_type, model, parent_id
    (null without parent), sha256 (the digest of the content), timestamp
    and tool; the identifier and the metadata do not enter, so two
    artifacts that differ only there have the same fingerprint. *)
Theorem artifact_fingerprint_canonical (a : Artifact.t) :
  Artifact.fingerprint a
  = sha256_hex
      ("{" ++ String.concat ", "
         [json_str "artifact_type" ++ ": "
            ++ json_str (Artifact.artifact_type_str (Artifact.artifact_type a));
          json_str "model" ++ ": "
            ++ json_dumps (provenance (Artifact.model_name a) (Artifact.model_version a));
          json_str "parent_id" ++ ": "
            ++ match Artifact.parent_artifact_id a with
               | Some p => json_str p
               | None => "null"
               end;
          json_str "sha256" ++ ": " ++ json_str (sha256_hex (Artifact.content a));
          json_str "timestamp" ++ ": " ++ json_str (isoformat (Artifact.timestamp a));
          json_str "tool" ++ ": "
            ++ json_dumps (provenance (Artifact.tool_name a) (Artifact.tool_version a))]
       ++ "}")
  /\ (forall i i' metadata metadata',
        Artifact.fingerprint
          (Artifact.mk i (Artifact.artifact_type a) (Artifact.content a)
             (Artifact.parent_artifact_id a) metadata (Artifact.tool_name a)
             (Artifact.tool_version a) (Artifact.model_name a)
             (Artifact.model_version a) (Artifact.timestamp a))
        = Artifact.fingerprint
            (Artifact.mk i' (Artifact.artifact_type a) (Artifact.content a)
               (Artifact.parent_artifact_id a) metadata' (Artifact.tool_name a)
               (Artifact.tool_version a) (Artifact.model_name a)
               (Artifact.model_version a) (Artifact.timestamp a))).
Proof.
  split; [|done].
  unfold Artifact.fingerprint, Artifact.fingerprint_data.
  by destruct (Artifact.parent_artifact_id a).
Qed.

End MoreFingerprints.

(** ** Run diff, continued *)

Lemma SFcompare_refl (x : spec_float) :
  x <> S754_nan -> SFcompare x x = Some Eq.
Proof.
  destruct x as [s|s| |s m e]; simpl; try done; intros _.
  - by destruct s.
  - change (IntDef.Z.compare e e) with (Z.compare e e).
    change (PosDef.Pos.compare_cont Eq m m) with (Pos.compare m m).
    rewrite Z.compare_refl, Pos.compare_refl. by destruct s.
Qed.

(** A float that compares with another is a number, hence equal to
    itself. *)
Lemma float_leb_eqb_refl (x y : float) :
  (y <=? x)%float = true -> (x =? x)%float = true.
Proof.
  rewrite leb_spec, FloatAxioms.eqb_spec. unfold SFleb, SFeqb. intros Hle.
  rewrite SFcompare_refl; [done|]. intros Hnan. rewrite Hnan in Hle.
  by destruct (Prim2SF y).
Qed.

Section MoreRunDiff.
Context `{PyRuntime}.

Lemma differs_sym (a b : Claim.t) : Diff.differs a b = Diff.differs b a.
Proof.
  unfold Diff.differs.
  by rewrite (String.eqb_sym (Claim.statement a)),
    (float_eqb_sym (Claim.confidence a)),
    (String.eqb_sym (Claim.run_fingerprint a)).
Qed.

Lemma modified_at_swap (ma mb : gmap string Claim.t) (ids : list string) :
  map Diff.id (flat_map (modified_at ma mb) ids)
  = map Diff.id (flat_map (modified_at mb ma) ids).
Proof.
  induction ids as [|i ids IH]; simpl; [done|].
  rewrite !map_app, IH. f_equal. unfold modified_at.
  destruct (ma !! i) as [a|], (mb !! i) as [b|]; try done.
  rewrite (differs_sym b a). by destruct (Diff.differs a b).
Qed.

(** X14: comparing a sequence of claims with itself reports no added, no
    removed and no modified claim, provided each confidence is a number
    (equal to itself), as a validated confidence is. *)
Theorem compute_run_diff_same (claims : list Claim.t) :
  (forall c, c ∈ claims -> (Claim.confidence c =? Claim.confidence c)%float = true) ->
  Diff.compute_run_diff claims claims = inr (Diff.mk_run_diff [] [] [] 0).
Proof.
  intros Hnum. unfold Diff.compute_run_diff.
  rewrite modified_loop_inr.
  2: { intros i Hi%elem_of_elements. apply elem_of_intersection in Hi as [Ha _].
       by rewrite <- !elem_of_dom. }
  assert (Hnone : flat_map (modified_at (claims_map claims) (claims_map claims))
                    (elements (dom (claims_map claims) ∩ dom (claims_map claims)))
                  = []).
  { apply elem_of_nil_inv. intros e He.
    apply modified_at_elem in He as (_ & a & b & Ha & Hb & Hd & _).
    assert (a = b) as <- by congruence.
    apply claims_map_lookup in Ha as (_ & Ha & _).
    unfold Diff.differs in Hd. rewrite !String.eqb_refl, (Hnum a Ha) in Hd. done. }
  rewrite Hnone. simpl. unfold mret, result_ret. f_equal.
  rewrite difference_diag_L, elements_empty. by rewrite size_empty.
Qed.

(** X15: exchanging the two sequences exchanges the added and the
    removed identifiers and keeps the identifiers reported as modified,
    each up to the order in which a set is listed, and keeps the
    total. *)
Theorem compute_run_diff_swap (claims_a claims_b : list Claim.t) :
  exists d d' : Diff.run_diff,
    Diff.compute_run_diff claims_a claims_b = inr d
    /\ Diff.compute_run_diff claims_b claims_a = inr d'
    /\ Diff.added_claims d ≡ₚ Diff.removed_claims d'
    /\ Diff.removed_claims d ≡ₚ Diff.added_claims d'
    /\ map Diff.id (Diff.modified_claims d) ≡ₚ map Diff.id (Diff.modified_claims d')
    /\ Diff.total_changes d = Diff.total_changes d'.
Proof.
  unfold Diff.compute_run_diff.
  rewrite !modified_loop_inr.
  2, 3: intros i Hi%elem_of_elements; apply elem_of_intersection in Hi as [Ha Hb];
        by rewrite <- !elem_of_dom.
  simpl. eexists _, _. split; [reflexivity|]. split; [reflexivity|]. simpl.
  assert (Hcomm : dom (claims_map claims_b) ∩ dom (claims_map claims_a)
                  = dom (claims_map claims_a) ∩ dom (claims_map claims_b))
    by (apply set_eq; intros i; rewrite !elem_of_intersection; tauto).
  rewrite Hcomm.
  pose proof (modified_at_swap (claims_map claims_a) (claims_map claims_b)
                (elements (dom (claims_map claims_a) ∩ dom (claims_map claims_b))))
    as Hswap.
  split; [reflexivity|]. split; [reflexivity|]. split; [by rewrite Hswap|].
  apply (f_equal length) in Hswap. rewrite !length_map in Hswap. lia.
Qed.

End MoreRunDiff.

Lemma compute_run_diff_same_witness :
  @Diff.compute_run_diff example_runtime
    [example_claim "c1" 0.5 ["e1"] []; example_claim "c2" 1 ["e2"] []]
    [example_claim "c1" 0.5 ["e1"] []; example_claim "c2" 1 ["e2"] []]
  = inr (Diff.mk_run_diff [] [] [] 0).
Proof.
  apply (@compute_run_diff_same example_runtime).
  intros c [->|[->|[]%elem_of_nil]%elem_of_cons]%elem_of_cons; reflexivity.
Defined.

(** ** Artifact diff, continued *)

Section MoreArtifactDiff.
Context `{PyRuntime}.

Lemma modified_keys_loop_inr (da db : Dict.t pyval) (ks : list string) :
  forall acc,
    (forall k, k ∈ ks -> k ∈ Dict.keys da /\ k ∈ Dict.keys db) ->
    Diff.modified_keys_loop (PDict da) (PDict db) ks acc
    = inr (acc ++ flat_map (modified_key_at da db) ks)%list.
Proof.
  induction ks as [|k ks IH]; intros acc Hks; simpl.
  - by rewrite app_nil_r.
  - destruct (Hks k) as [Ha Hb]; [by left|].
    unfold modified_key_at.
    destruct (Dict.get da k) as [a|] eqn:Hga; [|by apply dict_get_None in Hga].
    destruct (Dict.get db k) as [b|] eqn:Hgb; [|by apply dict_get_None in Hgb].
    simpl. rewrite IH by (intros j Hj; apply Hks; by right).
    destruct (py_eq a b); simpl; [done|by rewrite <- app_assoc].
Qed.

Lemma modified_key_at_elem (da db : Dict.t pyval) (ks : list string)
    (e : Diff.modified_key) :
  e ∈ flat_map (modified_key_at da db) ks <->
  Diff.key e ∈ ks
  /\ exists a b, Dict.get da (Diff.key e) = Some a /\ Dict.get db (Diff.key e) = Some b
                 /\ py_eq a b = false
                 /\ e = Diff.mk_modified_key (Diff.key e) a b.
Proof.
  rewrite list_elem_of_In, in_flat_map. setoid_rewrite <- list_elem_of_In.
  unfold modified_key_at. split.
  - intros (k & Hk & He).
    destruct (Dict.get da k) as [a|] eqn:Ha; [|by apply elem_of_nil in He].
    destruct (Dict.get db k) as [b|] eqn:Hb; [|by apply elem_of_nil in He].
    destruct (py_eq a b) eqn:Hd; [by apply elem_of_nil in He|].
    apply list_elem_of_singleton in He as ->. simpl.
    split; [done|]. by exists a, b.
  - intros (Hk & a & b & Ha & Hb & Hd & He). exists (Diff.key e).
    split; [done|]. rewrite Ha, Hb, Hd. by apply list_elem_of_singleton.
Qed.

(** X16: when the two contents differ and both parse to JSON objects,
    [compute_artifact_diff] raises nothing and stores under
    [content_diff] the keys only the second object has as added, the
    keys only the first has as removed, and one entry, with both values,
    for each common key whose values are not equal. *)
Theorem compute_artifact_diff_objects (a b : Artifact.t) (da db : list (string * pyval)) :
  Artifact.content a <> Artifact.content b ->
  json_loads (Artifact.content a) = inr (PDict da) ->
  json_loads (Artifact.content b) = inr (PDict db) ->
  exists (d : Diff.artifact_diff) (dd : Diff.dict_diff),
    Diff.compute_artifact_diff a b = inr d
    /\ Diff.content_match d = false
    /\ Diff.content_diff d = Some (Diff.ContentDict dd)
    /\ (forall k, k ∈ Diff.added_keys dd <-> k ∈ Dict.keys db /\ k ∉ Dict.keys da)
    /\ (forall k, k ∈ Diff.removed_keys dd <-> k ∈ Dict.keys da /\ k ∉ Dict.keys db)
    /\ (forall e, e ∈ Diff.modified_keys dd <->
          exists va vb,
            Dict.get da (Diff.key e) = Some va /\ Dict.get db (Diff.key e) = Some vb
            /\ py_eq va vb = false
            /\ e = Diff.mk_modified_key (Diff.key e) va vb).
Proof.
  intros Hne%String.eqb_neq Ha Hb.
  unfold Diff.compute_artifact_diff. rewrite Hne, Ha, Hb. simpl.
  unfold Diff._compute_dict_diff. simpl.
  rewrite modified_keys_loop_inr.
  2: { intros k Hk%elem_of_elements. apply elem_of_intersection in Hk as [Hka Hkb].
       by apply elem_of_list_to_set in Hka, Hkb. }
  simpl. eexists _, _. split; [reflexivity|]. simpl.
  split; [done|]. split; [reflexivity|]. simpl.
  split; [|split].
  - intros k. by rewrite elem_of_elements, elem_of_difference, !elem_of_list_to_set.
  - intros k. by rewrite elem_of_elements, elem_of_difference, !elem_of_list_to_set.
  - intros e. rewrite modified_key_at_elem, elem_of_elements, elem_of_intersection,
      !elem_of_list_to_set.
    split; [by intros (_ & ?)|].
    intros (va & vb & Hva & Hvb & Heq & He). split; [|by exists va, vb].
    split; apply dict_contains_keys; unfold Dict.contains; by rewrite ?Hva, ?Hvb.
Qed.

(** X17: in the result of [compute_artifact_diff] the content flag tells
    whether the contents are equal, a content match implies a digest
    match, [content_diff] is present exactly when the contents differ,
    and the identifier, type and parent flags tell whether those fields
    are equal. *)
Theorem compute_artifact_diff_flags (a b : Artifact.t) (d : Diff.artifact_diff) :
  Diff.compute_artifact_diff a b = inr d ->
  (Diff.content_match d = true <-> Artifact.content a = Artifact.content b)
  /\ (Diff.content_match d = true -> Diff.sha256_match d = true)
  /\ (Diff.content_diff d = None <-> Diff.content_match d = true)
  /\ (Diff.id_match d = true <-> Artifact.id a = Artifact.id b)
  /\ (Diff.type_match d = true <-> Artifact.artifact_type a = Artifact.artifact_type b)
  /\ (Diff.parent_match d = true
      <-> Artifact.parent_artifact_id a = Artifact.parent_artifact_id b).
Proof.
  unfold Diff.compute_artifact_diff.
  destruct (String.eqb (Artifact.content a) (Artifact.content b)) eqn:Hc; simpl.
  - intros [= <-]. simpl. apply String.eqb_eq in Hc.
    rewrite !bool_decide_eq_true. repeat split; try done.
    intros _. unfold Artifact.sha256. rewrite Hc. apply String.eqb_refl.
  - destruct (try_except _ _ _) as [e|cd]; simpl; [done|].
    intros [= <-]. simpl. apply String.eqb_neq in Hc.
    rewrite !bool_decide_eq_true. repeat split; try done.
Qed.

End MoreArtifactDiff.

Lemma compute_artifact_diff_objects_witness :
  exists d,
    @Diff.compute_artifact_diff object_runtime
      (example_artifact "a1" object_text_1 None)
      (example_artifact "a2" object_text_2 None) = inr d
    /\ Diff.content_diff d
       = Some (Diff.ContentDict
                 (Diff.mk_dict_diff ["b"] []
                    [Diff.mk_modified_key "a" (PInt 1) (PInt 2)])).
Proof.
  destruct (@compute_artifact_diff_objects object_runtime
              (example_artifact "a1" object_text_1 None)
              (example_artifact "a2" object_text_2 None)
              [("a", PInt 1)] [("a", PInt 2); ("b", PInt 3)])
    as (d & dd & Hd & _).
  - discriminate.
  - reflexivity.
  - reflexivity.
  - exists d. split; [exact Hd|].
    vm_compute in Hd. injection Hd as <-. reflexivity.
Defined.

Lemma compute_artifact_diff_flags_witness :
  exists d,
    @Diff.compute_artifact_diff example_runtime
      (example_artifact "a1" "same" None) (example_artifact "a2" "same" (Some "a1"))
    = inr d
    /\ Diff.content_match d = true /\ Diff.sha256_match d = true
    /\ Diff.content_diff d = None.
Proof.
  eexists. split; [reflexivity|].
  destruct (@compute_artifact_diff_flags example_runtime
              (example_artifact "a1" "same" None)
              (example_artifact "a2" "same" (Some "a1")) _ eq_refl)
    as (Hc & Hs & Hd & _).
  split; [by apply Hc|]. split; [apply Hs; by apply Hc|]. apply Hd. by apply Hc.
Defined.

(** ** Alerts, continued *)

Section MoreAlerts.
Context `{PyRuntime}.

Lemma foldl_tags {A : Type} (f : Alert.t -> string) (cond : A -> bool) (tag : string)
    (step : list Alert.t -> A -> list Alert.t) :
  (forall acc x, f <$> step acc x = (f <$> acc) ++ (if cond x then [tag] else []))%list ->
  forall l acc,
    (f <$> foldl step acc l
     = (f <$> acc) ++ replicate (length (List.filter cond l)) tag)%list.
Proof.
  intros Hstep l. induction l as [|x l IH]; intros acc; simpl.
  - by rewrite app_nil_r.
  - rewrite IH, Hstep. destruct (cond x); simpl.
    + by rewrite <- app_assoc.
    + by rewrite app_nil_r.
Qed.

Lemma high_confidence_step_tags (f : Alert.t -> string) (tag : string) g clock :
  (forall m d t, f (Alert.mk "high_confidence_claim" "high" m d t) = tag) ->
  forall acc c,
    (f <$> AlertGenerator.high_confidence_step g clock acc c
     = (f <$> acc) ++ (if is_high_confidence g c then [tag] else []))%list.
Proof.
  intros Hf acc c. unfold AlertGenerator.high_confidence_step, is_high_confidence.
  destruct (_ <=? _)%float; [|by rewrite app_nil_r].
  unfold AlertGenerator.append_alert. by rewrite fmap_app; simpl; rewrite Hf.
Qed.

Lemma well_supported_step_tags (f : Alert.t -> string) (tag : string) clock :
  (forall m d t, f (Alert.mk "well_supported_claim" "medium" m d t) = tag) ->
  forall acc c,
    (f <$> AlertGenerator.well_supported_step clock acc c
     = (f <$> acc) ++ (if is_well_supported c then [tag] else []))%list.
Proof.
  intros Hf acc c. unfold AlertGenerator.well_supported_step, is_well_supported.
  destruct (_ <=? _)%Z; [|by rewrite app_nil_r].
  unfold AlertGenerator.append_alert. by rewrite fmap_app; simpl; rewrite Hf.
Qed.

(** X18: without previous claims, or with an empty list of them,
    [generate_alerts] returns one high-severity [high_confidence_claim]
    alert per claim at or above the high threshold, followed by one
    medium-severity [well_supported_claim] alert per claim with five or
    more references, and nothing else; with previous claims these alerts
    still come first. *)
Theorem generate_alerts_without_previous (g : AlertGenerator.t)
    (clock : AlertGenerator.clock_t) (claims : list Claim.t) :
  let out := AlertGenerator.generate_alerts g clock claims None in
  let nh := length (List.filter (is_high_confidence g) claims) in
  let nw := length (List.filter is_well_supported claims) in
  AlertGenerator.generate_alerts g clock claims (Some []) = out
  /\ (Alert.alert_type <$> out
      = replicate nh "high_confidence_claim" ++ replicate nw "well_supported_claim")%list
  /\ (Alert.severity <$> out = replicate nh "high" ++ replicate nw "medium")%list
  /\ length out = nh + nw
  /\ (forall previous,
        out `prefix_of` AlertGenerator.generate_alerts g clock claims previous).
Proof.
  intros out nh nw. subst out nh nw. unfold AlertGenerator.generate_alerts. simpl.
  assert (Hty : (Alert.alert_type <$>
                   foldl (AlertGenerator.well_supported_step clock)
                     (foldl (AlertGenerator.high_confidence_step g clock) [] claims)
                     claims
                 = replicate (length (List.filter (is_high_confidence g) claims))
                     "high_confidence_claim"
                   ++ replicate (length (List.filter is_well_supported claims))
                        "well_supported_claim")%list).
  { rewrite (foldl_tags Alert.alert_type is_well_supported "well_supported_claim")
      by (by apply well_supported_step_tags).
    by rewrite (foldl_tags Alert.alert_type (is_high_confidence g) "high_confidence_claim")
      by (by apply high_confidence_step_tags). }
  split; [done|]. split; [exact Hty|]. split; [|split].
  - rewrite (foldl_tags Alert.severity is_well_supported "medium")
      by (by apply well_supported_step_tags).
    by rewrite (foldl_tags Alert.severity (is_high_confidence g) "high")
      by (by apply high_confidence_step_tags).
  - apply (f_equal length) in Hty.
    by rewrite length_fmap, length_app, !length_replicate in Hty.
  - intros previous. destruct (AlertGenerator.list_truthy previous); [|done].
    apply foldl_prefix, comparison_step_prefix.
Qed.

End MoreAlerts.

Section MoreSummary.
Context `{PyRuntime}.

Lemma count_by_cons (f : Alert.t -> string) (k : string) (a : Alert.t)
    (alerts : list Alert.t) :
  count_by f k (a :: alerts)
  = ((if String.eqb (f a) k then 1 else 0) + count_by f k alerts)%Z.
Proof.
  unfold count_by. simpl. destruct (String.eqb (f a) k); simpl; lia.
Qed.

Lemma count_by_nonneg (f : Alert.t -> string) (k : string) (alerts : list Alert.t) :
  (0 <= count_by f k alerts)%Z.
Proof. unfold count_by. lia. Qed.

Lemma summary_loop_outcome (alerts : list Alert.t) :
  forall severity_counts type_counts,
    match AlertGenerator.summary_loop alerts severity_counts type_counts with
    | inr (sc, tc) =>
        (forall a, a ∈ alerts -> Alert.severity a ∈ Dict.keys severity_counts)
        /\ Dict.keys sc = Dict.keys severity_counts
        /\ (forall k, Dict.get sc k
                      = (fun n => (n + count_by Alert.severity k alerts)%Z)
                          <$> Dict.get severity_counts k)
        /\ (forall k, Dict.get tc k
                      = if (count_by Alert.alert_type k alerts =? 0)%Z
                        then Dict.get type_counts k
                        else Some (default 0%Z (Dict.get type_counts k)
                                   + count_by Alert.alert_type k alerts)%Z)
    | inl e =>
        exists a, a ∈ alerts /\ (Alert.severity a ∉ Dict.keys severity_counts)
                  /\ e = KeyError (Alert.severity a)
    end.
Proof.
  induction alerts as [|a alerts IH]; intros sc tc; simpl.
  - split; [by intros a ?%elem_of_nil|]. split; [done|].
    split; intros k; [|done]. unfold count_by. simpl.
    destruct (Dict.get sc k) as [n|]; simpl; [by rewrite Z.add_0_r|done].
  - destruct (Dict.get sc (Alert.severity a)) as [n|] eqn:Hn.
    + assert (Hkey : Alert.severity a ∈ Dict.keys sc).
      { apply dict_contains_keys. unfold Dict.contains. by rewrite Hn. }
      specialize (IH (Dict.set sc (Alert.severity a) (n + 1)%Z)
                    (Dict.set tc (Alert.alert_type a)
                       (default 0%Z (Dict.get tc (Alert.alert_type a)) + 1)%Z)).
      rewrite dict_keys_set in IH by done.
      destruct (AlertGenerator.summary_loop alerts _ _) as [e|[sc' tc']].
      * destruct IH as (b & Hb & Hsev & ->). exists b. split; [by right|done].
      * destruct IH as (Hall & Hkeys & Hsc & Htc). split; [|split; [done|split]].
        -- intros b [->|Hb]%elem_of_cons; [done|by apply Hall].
        -- intros k. rewrite Hsc, dict_get_set, count_by_cons.
           destruct (decide (Alert.severity a = k)) as [<-|Hk].
           ++ rewrite Hn, String.eqb_refl. simpl. f_equal. lia.
           ++ rewrite (proj2 (String.eqb_neq _ _) Hk).
              destruct (Dict.get sc k); simpl; [f_equal; lia|done].
        -- intros k. rewrite Htc, dict_get_set, count_by_cons.
           pose proof (count_by_nonneg Alert.alert_type k alerts) as Hpos.
           destruct (decide (Alert.alert_type a = k)) as [<-|Hk].
           ++ rewrite String.eqb_refl. simpl.
              destruct (count_by Alert.alert_type (Alert.alert_type a) alerts =? 0)%Z
                eqn:Hz.
              ** apply Z.eqb_eq in Hz. rewrite Hz. simpl. f_equal; lia.
              ** rewrite (proj2 (Z.eqb_neq _ 0)) by lia. f_equal; lia.
           ++ rewrite (proj2 (String.eqb_neq _ _) Hk). by rewrite Z.add_0_l.
    + exists a. split; [by left|]. split; [|done]. by apply dict_get_None.
Qed.

(** X19: [generate_summary] returns exactly when every alert has one of
    the severities low, medium, high and critical; otherwise it raises
    [KeyError] naming the severity of an alert that has none of them. *)
Theorem generate_summary_known_severities (g : AlertGenerator.t)
    (alerts : list Alert.t) :
  ((forall a, a ∈ alerts -> Alert.severity a ∈ known_severities)
   <-> exists s, AlertGenerator.generate_summary g alerts = inr s)
  /\ (forall e, AlertGenerator.generate_summary g alerts = inl e ->
        exists a, a ∈ alerts /\ (Alert.severity a ∉ known_severities)
                  /\ e = KeyError (Alert.severity a)).
Proof.
  unfold AlertGenerator.generate_summary.
  pose proof (summary_loop_outcome alerts
                [("low", 0%Z); ("medium", 0%Z); ("high", 0%Z); ("critical", 0%Z)] [])
    as Hloop.
  destruct (AlertGenerator.summary_loop alerts _ _) as [e|[sc tc]]; simpl.
  - destruct Hloop as (a & Ha & Hsev & ->). split.
    + split; [|by intros [s [=]]]. intros Hall. destruct Hsev. exact (Hall a Ha).
    + intros e [= <-]. by exists a.
  - destruct Hloop as (Hall & _). split; [|done].
    split; [intros _; by eexists|]. intros _. exact Hall.
Qed.

(** X20: when [generate_summary] returns, [total_alerts] is the number
    of alerts, the severity counters are the four fixed ones and each
    holds the number of alerts of that severity, [type_counts] holds for
    each alert type that occurs the number of its alerts and has no
    entry for a type that does not occur, and [alerts] is the list of
    the alerts' dictionaries in order. *)
Theorem generate_summary_counts (g : AlertGenerator.t) (alerts : list Alert.t)
    (s : AlertGenerator.summary) :
  AlertGenerator.generate_summary g alerts = inr s ->
  AlertGenerator.total_alerts s = length alerts
  /\ Dict.keys (AlertGenerator.severity_counts s) = known_severities
  /\ (forall k, k ∈ known_severities ->
        Dict.get (AlertGenerator.severity_counts s) k
        = Some (count_by Alert.severity k alerts))
  /\ (forall k, Dict.get (AlertGenerator.type_counts s) k
                = if (count_by Alert.alert_type k alerts =? 0)%Z then None
                  else Some (count_by Alert.alert_type k alerts))
  /\ AlertGenerator.alerts s = map Alert.to_dict alerts.
Proof.
  unfold AlertGenerator.generate_summary.
  pose proof (summary_loop_outcome alerts
                [("low", 0%Z); ("medium", 0%Z); ("high", 0%Z); ("critical", 0%Z)] [])
    as Hloop.
  destruct (AlertGenerator.summary_loop alerts _ _) as [e|[sc tc]]; simpl; [done|].
  intros [= <-]. simpl. destruct Hloop as (_ & Hkeys & Hsc & Htc).
  split; [done|]. split; [done|]. split; [|split; [|done]].
  - intros k Hk. rewrite Hsc. unfold known_severities in Hk.
    repeat (apply elem_of_cons in Hk as [->|Hk]; [reflexivity|]).
    by apply elem_of_nil in Hk.
  - intros k. rewrite Htc. simpl.
    destruct (count_by Alert.alert_type k alerts =? 0)%Z; [done|]. f_equal; lia.
Qed.

End MoreSummary.

Lemma generate_summary_counts_witness :
  exists s,
    @AlertGenerator.generate_summary example_runtime AlertGenerator.init_default
      [Alert.mk "high_confidence_claim" "high" "m" [] 0;
       Alert.mk "custom" "critical" "m" [] 1] = inr s
    /\ Dict.get (AlertGenerator.severity_counts s) "critical" = Some 1%Z
    /\ Dict.get (AlertGenerator.type_counts s) "custom" = Some 1%Z
    /\ Dict.get (AlertGenerator.type_counts s) "confidence_drop" = None.
Proof.
  eexists. split; [reflexivity|].
  destruct (@generate_summary_counts example_runtime AlertGenerator.init_default
              [Alert.mk "high_confidence_claim" "high" "m" [] 0;
               Alert.mk "custom" "critical" "m" [] 1] _ eq_refl)
    as (_ & _ & Hsev & Hty & _).
  split; [|split].
  - rewrite Hsev; [reflexivity|]. unfold known_severities. set_solver.
  - by rewrite Hty.
  - by rewrite Hty.
Defined.

(** ** Plugins *)

Lemma dict_values_set_new {V : Type} (d : Dict.t V) (k : string) (v : V) :
  Dict.contains d k = false ->
  Dict.values (Dict.set d k v) = (Dict.values d ++ [v])%list.
Proof.
  unfold Dict.values, Dict.contains. induction d as [|[j w] d IH]; simpl; [done|].
  destruct (decide (j = k)); [done|]. simpl. intros Hk. by rewrite IH.
Qed.

Lemma dict_delete_set_new {V : Type} (d : Dict.t V) (k : string) (v : V) :
  Dict.contains d k = false -> Dict.delete (Dict.set d k v) k = d.
Proof.
  unfold Dict.contains. induction d as [|[j w] d IH]; simpl.
  - by rewrite decide_True.
  - destruct (decide (j = k)) as [|Hjk]; [done|]. simpl.
    rewrite decide_False by done. intros Hk. by rewrite IH.
Qed.

Lemma dict_get_delete {V : Type} (d : Dict.t V) (k k' : string) :
  NoDup (Dict.keys d) ->
  Dict.get (Dict.delete d k) k' = if decide (k = k') then None else Dict.get d k'.
Proof.
  unfold Dict.keys. induction d as [|[j w] d IH]; simpl; intros Hnd.
  - by destruct (decide (k = k')).
  - apply NoDup_cons in Hnd as [Hj Hnd].
    destruct (decide (j = k)) as [->|Hjk]; simpl.
    + destruct (decide (k = k')) as [<-|]; [|done].
      by apply dict_get_None.
    + destruct (decide (j = k')) as [->|]; [by rewrite decide_False by congruence|].
      by apply IH.
Qed.

Lemma dict_contains_None {V : Type} (d : Dict.t V) (k : string) :
  Dict.get d k = None -> Dict.contains d k = false.
Proof. unfold Dict.contains. by intros ->. Qed.

Lemma dict_keys_delete_elem {V : Type} (d : Dict.t V) (k j : string) :
  NoDup (Dict.keys d) ->
  j ∈ Dict.keys (Dict.delete d k) <-> j ∈ Dict.keys d /\ j <> k.
Proof.
  intros Hnd. rewrite <- !dict_contains_keys. unfold Dict.contains.
  rewrite dict_get_delete by done.
  destruct (decide (k = j)) as [->|]; [split; [done|by intros [_ ?]]|].
  destruct (Dict.get d j); split; try done; by intros [? _].
Qed.

Lemma dict_keys_delete {V : Type} (d : Dict.t V) (k : string) :
  NoDup (Dict.keys d) -> NoDup (Dict.keys (Dict.delete d k)).
Proof.
  unfold Dict.keys. induction d as [|[j w] d IH]; simpl; [constructor|].
  intros [Hj Hnd]%NoDup_cons. destruct (decide (j = k)); [done|].
  simpl. apply NoDup_cons. split; [|by apply IH].
  intros Hin. apply Hj. by apply (dict_keys_delete_elem d k j) in Hin as [? _].
Qed.

(** X21: [register] raises [ValueError] exactly when a plugin of the
    same name is registered, and then leaves the registry as it was;
    otherwise it adds the plugin last, under its name, without touching
    the others, and names stay distinct. *)
Theorem register_spec (r : PluginRegistry.t) (plugin : SourcePlugin.t) :
  let res := PluginRegistry.register r plugin in
  let n := SourcePlugin.name plugin in
  (n ∈ PluginRegistry.list_plugins r ->
   res.1 = inl (ValueError ("Plugin '" ++ n ++ "' is already registered"))
   /\ res.2 = r)
  /\ (n ∉ PluginRegistry.list_plugins r ->
      res.1 = inr tt
      /\ PluginRegistry.get_plugin res.2 n = Some plugin
      /\ PluginRegistry.list_plugins res.2 = (PluginRegistry.list_plugins r ++ [n])%list
      /\ PluginRegistry.get_all_plugins res.2
         = (PluginRegistry.get_all_plugins r ++ [plugin])%list
      /\ (forall m, m <> n ->
            PluginRegistry.get_plugin res.2 m = PluginRegistry.get_plugin r m))
  /\ (NoDup (PluginRegistry.list_plugins r) -> NoDup (PluginRegistry.list_plugins res.2)).
Proof.
  intros res n. subst res n.
  unfold PluginRegistry.register, PluginRegistry.list_plugins,
    PluginRegistry.get_plugin, PluginRegistry.get_all_plugins.
  destruct (Dict.contains (PluginRegistry._plugins r) (SourcePlugin.name plugin)) eqn:Hc;
    simpl.
  - apply dict_contains_keys in Hc. repeat split; try done.
  - assert (Hn : SourcePlugin.name plugin ∉ Dict.keys (PluginRegistry._plugins r)).
    { intros Hin%dict_contains_keys. congruence. }
    split; [done|]. split.
    + intros _. split; [done|]. split; [by rewrite dict_get_set, decide_True|].
      split; [by apply dict_keys_set_new|]. split; [by apply dict_values_set_new|].
      intros m Hm. by rewrite dict_get_set, decide_False.
    + apply dict_keys_NoDup_set.
Qed.

(** X22: on a registry with distinct names, [unregister] removes the
    plugin of that name and no other, does nothing for a name that is
    not registered, keeps names distinct, undoes a [register] of a new
    name, and leaves the name free to be registered again. *)
Theorem unregister_spec (r : PluginRegistry.t) (plugin_name : string) :
  NoDup (PluginRegistry.list_plugins r) ->
  let r' := PluginRegistry.unregister r plugin_name in
  PluginRegistry.get_plugin r' plugin_name = None
  /\ (forall m, m <> plugin_name ->
        PluginRegistry.get_plugin r' m = PluginRegistry.get_plugin r m)
  /\ (plugin_name ∉ PluginRegistry.list_plugins r -> r' = r)
  /\ NoDup (PluginRegistry.list_plugins r')
  /\ (forall plugin, SourcePlugin.name plugin = plugin_name ->
        (PluginRegistry.register r' plugin).1 = inr tt
        /\ (plugin_name ∉ PluginRegistry.list_plugins r ->
            PluginRegistry.unregister (PluginRegistry.register r plugin).2 plugin_name
            = r)).
Proof.
  intros Hnd r'. subst r'.
  unfold PluginRegistry.unregister, PluginRegistry.list_plugins,
    PluginRegistry.get_plugin in *.
  destruct r as [d]. simpl in *.
  assert (Hgone : Dict.get
                    (PluginRegistry._plugins
                       (if Dict.contains d plugin_name
                        then PluginRegistry.mk (Dict.delete d plugin_name)
                        else PluginRegistry.mk d)) plugin_name = None).
  { destruct (Dict.contains d plugin_name) eqn:Hc; simpl.
    - by rewrite dict_get_delete, decide_True.
    - unfold Dict.contains in Hc. by destruct (Dict.get d plugin_name). }
  split; [exact Hgone|]. split; [|split; [|split; [|intros plugin Hname; split]]].
  - intros m Hm. destruct (Dict.contains d plugin_name); simpl; [|done].
    by rewrite dict_get_delete, decide_False.
  - intros Hn. destruct (Dict.contains d plugin_name) eqn:Hc; [|done].
    by apply dict_contains_keys in Hc.
  - destruct (Dict.contains d plugin_name); simpl; [|done].
    by apply dict_keys_delete.
  - unfold PluginRegistry.register. rewrite Hname.
    by rewrite (dict_contains_None _ _ Hgone).
  - intros Hn. unfold PluginRegistry.register. rewrite Hname.
    assert (Hc : Dict.contains d plugin_name = false).
    { destruct (Dict.contains d plugin_name) eqn:Hc; [|done].
      by apply dict_contains_keys in Hc. }
    simpl. rewrite Hc. simpl. unfold Dict.contains.
    rewrite dict_get_set, decide_True by done. simpl.
    by rewrite dict_delete_set_new.
Qed.

Lemma unregister_spec_witness :
  let r := (PluginRegistry.register PluginRegistry.init ManualEntryPlugin.plugin).2 in
  PluginRegistry.list_plugins r = ["manual_entry"]
  /\ PluginRegistry.get_plugin (PluginRegistry.unregister r "manual_entry")
                               "manual_entry" = None.
Proof.
  intros r. split; [reflexivity|].
  apply (unregister_spec r "manual_entry"). apply NoDup_singleton.
Defined.

(** X23: the manual-entry plugin accepts a configuration exactly when
    its content entry is a string. For an accepted configuration whose
    metadata entry is missing or a dictionary, [extract] returns one
    evidence record with that content, source manual, the plugin's name
    and version as tool, the clock reading, and no identifier; the
    metadata entry is not looked at by [validate_config], and when it is
    present and not a dictionary [extract] raises although the
    configuration was accepted. A configuration without content entry is
    not accepted, yet [extract] builds a record with empty content from
    it. *)
Theorem manual_entry_extract (config : Dict.t pyval) (now : Z) :
  let record content metadata :=
    Evidence.mk None content "manual" metadata (Some "manual_entry") (Some "0.1.0")
                None None now in
  (ManualEntryPlugin.validate_config config = true
   <-> exists s, Dict.get config "content" = Some (PStr s))
  /\ (forall s, Dict.get config "content" = Some (PStr s) ->
        (Dict.get config "metadata" = None ->
         ManualEntryPlugin.extract config now = inr [record s []])
        /\ (forall m, Dict.get config "metadata" = Some (PDict m) ->
              ManualEntryPlugin.extract config now = inr [record s m])
        /\ (forall v, Dict.get config "metadata" = Some v -> is_dict v = false ->
              ManualEntryPlugin.extract config now
              = inl (ValidationError "metadata" "dict_type")))
  /\ (Dict.get config "content" = None ->
      ManualEntryPlugin.validate_config config = false
      /\ (Dict.get config "metadata" = None ->
          ManualEntryPlugin.extract config now = inr [record "" []])).
Proof.
  intros record. subst record.
  unfold ManualEntryPlugin.validate_config, ManualEntryPlugin.extract, Dict.contains.
  split; [|split].
  - destruct (Dict.get config "content") as [[]|]; simpl;
      split; try done; try (by intros [s [=]]). intros _. by eexists.
  - intros s ->. simpl. split; [by intros ->|]. split; [by intros m ->|].
    intros v -> Hv. by destruct v.
  - intros ->. simpl. split; [done|]. by intros ->.
Qed.

(** ** Stores built by [store_artifact] *)

(** X24: on every store built by [store_artifact] with new identifiers,
    each artifact is stored under its own identifier, identifiers are
    distinct, the parent links have no cycle, and [get_artifact_lineage]
    returns for every identifier. *)
Theorem built_store_lineage (s : ArtifactStore.t) :
  built s ->
  (forall i a, ArtifactStore.get_artifact s i = Some a -> Artifact.id a = Some i)
  /\ NoDup (Dict.keys (ArtifactStore._artifacts s))
  /\ acyclic s
  /\ (forall artifact_id, exists l,
        forall fuel, length l < fuel ->
          ArtifactStore.get_artifact_lineage fuel s artifact_id = Some l).
Proof.
  intros Hb.
  assert (Hinv : (forall i a, ArtifactStore.get_artifact s i = Some a ->
                              Artifact.id a = Some i)
                 /\ NoDup (Dict.keys (ArtifactStore._artifacts s)) /\ acyclic s).
  { induction Hb as [|s now uuid ty content parent md tn tv mn mv Hb (Hid & Hnd & Hac)
                       Hfresh Hself Hnamed].
    - split; [done|]. split; [constructor|apply init_acyclic].
    - split; [|split].
      + intros i a. unfold ArtifactStore.store_artifact, ArtifactStore.get_artifact.
        simpl. rewrite dict_get_set. destruct (decide (uuid = i)) as [<-|].
        * by intros [= <-].
        * apply Hid.
      + by apply dict_keys_NoDup_set.
      + by apply store_artifact_acyclic. }
  destruct Hinv as (Hid & Hnd & Hac). repeat split; try done.
  intros artifact_id. destruct (acyclic_chain s Hac artifact_id) as [l Hl].
  exists l. intros fuel Hf. unfold ArtifactStore.get_artifact_lineage.
  rewrite (chain_lineage_loop _ _ _ Hl [] fuel Hf). by rewrite app_nil_r.
Qed.

Lemma built_store_lineage_witness :
  built two_version_store
  /\ exists l, forall fuel, length l < fuel ->
       ArtifactStore.get_artifact_lineage fuel two_version_store "u2" = Some l.
Proof.
  assert (Hb : built two_version_store).
  { unfold two_version_store. apply built_store; [apply built_store| | |].
    - apply built_init.
    - reflexivity.
    - discriminate.
    - intros j b [=].
    - reflexivity.
    - discriminate.
    - intros j b. unfold ArtifactStore.get_artifact. simpl.
      destruct (decide ("u1" = j)); [|discriminate]. intros [= <-]. discriminate. }
  split; [exact Hb|].
  destruct (built_store_lineage two_version_store Hb) as (_ & _ & _ & Hl).
  apply Hl.
Defined.

(** ** Artifact diff and exceptions of the parser *)

(** X25: when the contents differ and [json.loads] raises on the first
    content, or on the second after reading the first, a
    [JSONDecodeError] or [TypeError] is turned into the marker string
    under [content_diff], and any other exception leaves
    [compute_artifact_diff] as raised. *)
Theorem compute_artifact_diff_parser_error `{PyRuntime} (a b : Artifact.t) (e : exn) :
  Artifact.content a <> Artifact.content b ->
  json_loads (Artifact.content a) = inl e
  \/ ((exists va, json_loads (Artifact.content a) = inr va)
      /\ json_loads (Artifact.content b) = inl e) ->
  (Diff.caught_by_diff e = true
   <-> exists msg, e = JSONDecodeError msg \/ e = TypeError msg)
  /\ (Diff.caught_by_diff e = true ->
      exists d, Diff.compute_artifact_diff a b = inr d
                /\ Diff.content_match d = false
                /\ Diff.content_diff d = Some (Diff.ContentStr "Raw content differs"))
  /\ (Diff.caught_by_diff e = false -> Diff.compute_artifact_diff a b = inl e).
Proof.
  intros Hne%String.eqb_neq Hload. split; [|split].
  - destruct e; simpl; split; try done; try (by intros [m [[=]|[=]]]);
      intros _; eexists; eauto.
  - intros Hc. unfold Diff.compute_artifact_diff. rewrite Hne. simpl.
    destruct Hload as [Ha|[[va Ha] Hb]]; rewrite Ha, ?Hb; simpl; rewrite Hc;
      simpl; by eexists.
  - intros Hc. unfold Diff.compute_artifact_diff. rewrite Hne. simpl.
    destruct Hload as [Ha|[[va Ha] Hb]]; rewrite Ha, ?Hb; simpl; by rewrite Hc.
Qed.

Lemma compute_artifact_diff_parser_error_witness :
  exists d,
    @Diff.compute_artifact_diff example_runtime
      (example_artifact "a1" "Same content" None)
      (example_artifact "a1" "Different content" None) = inr d
    /\ Diff.content_diff d = Some (Diff.ContentStr "Raw content differs").
Proof.
  destruct (@compute_artifact_diff_parser_error example_runtime
              (example_artifact "a1" "Same content" None)
              (example_artifact "a1" "Different content" None)
              (JSONDecodeError "Expecting value")) as (_ & Hmark & _).
  - discriminate.
  - left. reflexivity.
  - destruct (Hmark eq_refl) as (d & Hd & _ & Hcd). by exists d.
Defined.
